(** * mini_inventory: restocking rules and inventory operations

    A shallow embedding of [models.py], [utils.py] and [main.py].

    - Python [int] is [Z]; the fields of a stored product form a record.
    - Python [float] is IEEE 754 binary64, taken from the Standard
      Library's executable specification [SpecFloat] (precision 53,
      [emax] 1024, round to nearest even).  The mixed operations of the
      source ([int * float], [int <= float], [int(float)]) are written
      out in [Module PyFloat].
    - The JSON file behind [load_data] / [save_data] is a finite map from
      product identifiers to products, together with a counter of the
      [save_data] calls performed so far.
    - Request handlers run in a small state-and-exception monad: an
      exception aborts the handler and leaves the file as it was.  In
      that first model [save_data] always writes; the handlers named
      [..._io] take the outcome of their call of [save_data] as an
      argument, with the two failures the source raises again.
    - Logging is an observability sink and is not modelled. *)

From Stdlib Require Import ZArith Lia Bool.
From Stdlib Require Import Floats.SpecFloat.
From stdpp Require Import gmap strings.

Open Scope Z_scope.

(** ** Exceptions *)

(** [HTTPException] with its three uses in [main.py], and the two
    exceptions of Python's float arithmetic that no handler catches. *)
Inductive error : Type :=
  | AlreadyExists                                   (* 400, "Product already exists" *)
  | NotFound                                        (* 404, "Product not found" *)
  | InsufficientStock (available requested : Z)     (* 400, "Insufficient stock. ..." *)
  | OverflowError                                   (* int too large for a float; int(inf) *)
  | ValueError.                                     (* int(nan) *)

Inductive result (A : Type) : Type :=
  | Ok (a : A)
  | Err (e : error).
Arguments Ok {A} a.
Arguments Err {A} e.

Definition result_bind {A B} (r : result A) (k : A -> result B) : result B :=
  match r with
  | Ok a => k a
  | Err e => Err e
  end.

Declare Scope result_scope.
Delimit Scope result_scope with result.
Notation "'let?' x ':=' r 'in' k" :=
  (result_bind r (fun x => k))
  (at level 10, x pattern, r at level 100, k at level 200)
  : result_scope.

(** ** Python floats *)

Module PyFloat.

Definition prec : Z := 53.
Definition emax : Z := 1024.

Abbreviation float := spec_float.

(** [float(n)] for an [int] [n] ([PyLong_AsDouble]): the nearest
    double, ties to even; [OverflowError] when that is not finite. *)
Definition of_int (n : Z) : result float :=
  match binary_normalize prec emax n 0 false with
  | S754_infinity _ => Err OverflowError
  | f => Ok f
  end.

(** [x * y] on floats never raises: it overflows to an infinity. *)
Definition mul (x y : float) : float := SFmul prec emax x y.

(** [n * y] with [n] an [int] and [y] a [float]: [n] is converted first. *)
Definition int_mul (n : Z) (y : float) : result float :=
  (let? x := of_int n in Ok (mul x y))%result.

(** The mantissa with its sign. *)
Definition mant (s : bool) (m : positive) : Z := cond_Zopp s (Z.pos m).

(** [n <= f] with [n] an [int] and [f] a [float]: Python compares the
    two exactly, without converting [n]. *)
Definition int_le (n : Z) (f : float) : bool :=
  match f with
  | S754_zero _ => n <=? 0
  | S754_infinity s => negb s
  | S754_nan => false
  | S754_finite s m e =>
      if 0 <=? e then n <=? mant s m * 2 ^ e
      else n * 2 ^ (- e) <=? mant s m
  end.

(** [int(f)]: truncation toward zero. *)
Definition to_int (f : float) : result Z :=
  match f with
  | S754_zero _ => Ok 0
  | S754_infinity _ => Err OverflowError
  | S754_nan => Err ValueError
  | S754_finite s m e =>
      Ok (cond_Zopp s (if 0 <=? e then Z.pos m * 2 ^ e
                       else Z.pos m / 2 ^ (- e)))
  end.

(** The float literals of [utils.py] and [main.py]. *)
Definition lit_0_5 : float := S754_finite false 4503599627370496 (-53).
Definition lit_0_25 : float := S754_finite false 4503599627370496 (-54).
Definition lit_1_2 : float := S754_finite false 5404319552844595 (-52).
Definition lit_1_1 : float := S754_finite false 4953959590107546 (-52).

End PyFloat.

(** ** models.py *)

Inductive PriorityEnum : Type := high | medium | low.

Inductive CategoryEnum : Type := high_volume | low_volume.

Inductive StatusEnum : Type := ok | below_threshold | out_of_stock.

#[global] Instance PriorityEnum_eq_dec : EqDecision PriorityEnum.
Proof. solve_decision. Defined.
#[global] Instance CategoryEnum_eq_dec : EqDecision CategoryEnum.
Proof. solve_decision. Defined.
#[global] Instance StatusEnum_eq_dec : EqDecision StatusEnum.
Proof. solve_decision. Defined.

(** [class Product(BaseModel)]; [category] is [Optional]. *)
Record Product : Type := mkProduct {
  product_id : string;
  name : string;
  stock_quantity : Z;
  min_threshold : Z;
  restock_quantity : Z;
  priority : PriorityEnum;
  category : option CategoryEnum
}.

Definition set_stock_quantity (v : Z) (p : Product) : Product :=
  mkProduct (product_id p) (name p) v (min_threshold p)
            (restock_quantity p) (priority p) (category p).

Definition set_min_threshold (v : Z) (p : Product) : Product :=
  mkProduct (product_id p) (name p) (stock_quantity p) v
            (restock_quantity p) (priority p) (category p).

Definition set_category (v : option CategoryEnum) (p : Product) : Product :=
  mkProduct (product_id p) (name p) (stock_quantity p) (min_threshold p)
            (restock_quantity p) (priority p) v.

(** [Product.validate_positive_numbers]: the three quantities are
    rejected when negative. *)
Definition validate_positive_numbers (v : Z) : bool := negb (v <? 0).

Definition valid_Product (p : Product) : Prop :=
  validate_positive_numbers (stock_quantity p) = true /\
  validate_positive_numbers (min_threshold p) = true /\
  validate_positive_numbers (restock_quantity p) = true.

(** [PurchaseRequest.validate_quantity]. *)
Definition validate_quantity (v : Z) : bool := negb (v <=? 0).

Record InventoryResponse : Type := mkInventoryResponse {
  ir_product_id : string;
  ir_stock_quantity : Z;
  ir_status : StatusEnum;
  ir_priority : PriorityEnum
}.

Record PurchaseResponse : Type := mkPurchaseResponse {
  remaining_stock : Z;
  restock_triggered : bool
}.

(** The dictionary returned by [manual_restock]. *)
Record RestockResponse : Type := mkRestockResponse {
  rr_product_id : string;
  stock_before : Z;
  stock_after : Z;
  rr_restock_quantity : Z
}.

(** ** utils.py *)

Definition get_inventory_status (product : Product) : StatusEnum :=
  let stock := stock_quantity product in
  let threshold := min_threshold product in
  if stock =? 0 then out_of_stock
  else if stock <? threshold then below_threshold
  else ok.

Definition should_restock (product : Product) : result bool :=
  let stock := stock_quantity product in
  let threshold := min_threshold product in
  if stock =? 0 then Ok true
  else if stock >=? threshold then Ok false
  else match priority product with
       | high => Ok (stock <? threshold)
       | medium =>
           (let? lim := PyFloat.int_mul threshold PyFloat.lit_0_5 in
            Ok (PyFloat.int_le stock lim))%result
       | low =>
           (let? lim := PyFloat.int_mul threshold PyFloat.lit_0_25 in
            Ok (PyFloat.int_le stock lim))%result
       end.

(** The amount [actual_restock] of [restock_if_needed] (lines 105-113),
    as a function of the three fields it reads. *)
Definition compute_restock_amount
    (restock_qty : Z) (prio : PriorityEnum) (cat : option CategoryEnum)
    : result Z :=
  if decide (prio = high) then
    (let? x := PyFloat.int_mul restock_qty PyFloat.lit_1_2 in
     PyFloat.to_int x)%result
  else if decide (cat = Some high_volume) then
    (let? x := PyFloat.int_mul restock_qty PyFloat.lit_1_1 in
     PyFloat.to_int x)%result
  else Ok restock_qty.

(** [restock_if_needed] updates the product in place and returns a flag:
    here it returns the product as it is afterwards with the flag. *)
Definition restock_if_needed (product : Product) : result (Product * bool) :=
  (let? go := should_restock product in
   if negb go then Ok (product, false)
   else
     let? actual_restock :=
       compute_restock_amount (restock_quantity product)
                              (priority product) (category product) in
     Ok (set_stock_quantity (stock_quantity product + actual_restock) product,
         true))%result.

(** ** The file store *)

(** [inventory_store.json] as [load_data] reads it, and the number of
    [save_data] calls made so far. *)
Record World : Type := mkWorld {
  disk : gmap string Product;
  saves : nat
}.

(** A handler reads and writes the file and may raise. *)
Definition M (A : Type) : Type := World -> result A * World.

Definition ret {A} (a : A) : M A := fun w => (Ok a, w).

Definition raise {A} (e : error) : M A := fun w => (Err e, w).

Definition bind {A B} (m : M A) (k : A -> M B) : M B :=
  fun w =>
    match m w with
    | (Ok a, w') => k a w'
    | (Err e, w') => (Err e, w')
    end.

(** An exception of the pure helpers propagates through the handler. *)
Definition lift {A} (r : result A) : M A := fun w => (r, w).

Declare Scope handler_scope.
Delimit Scope handler_scope with handler.
Notation "'let!' x ':=' m 'in' k" :=
  (bind m (fun x => k))
  (at level 10, x pattern, m at level 100, k at level 200)
  : handler_scope.

Definition load_data : M (gmap string Product) := fun w => (Ok (disk w), w).

Definition save_data (data : gmap string Product) : M unit :=
  fun w => (Ok tt, mkWorld data (S (saves w))).

(** ** main.py *)

Definition add_product (product : Product) : M Product :=
  (let! data := load_data in
   if decide (is_Some (data !! product_id product)) then raise AlreadyExists
   else
     let product :=
       if bool_decide (priority product = high) && (min_threshold product <? 10)
       then set_min_threshold 10 product else product in
     let product :=
       set_category
         (Some (if restock_quantity product >? 50 then high_volume
                else low_volume)) product in
     let! _ := save_data (<[product_id product := product]> data) in
     ret product)%handler.

Definition inventory_response (product : Product) : InventoryResponse :=
  mkInventoryResponse (product_id product) (stock_quantity product)
                      (get_inventory_status product) (priority product).

Definition inventory_status (pid : string) : M InventoryResponse :=
  (let! data := load_data in
   match data !! pid with
   | None => raise NotFound
   | Some product => ret (inventory_response product)
   end)%handler.

(** The loop runs over [data.items()]; the order of the answers is the
    order [map_to_list] enumerates the map in. *)
Definition get_all_inventory : M (list InventoryResponse) :=
  (let! data := load_data in
   if decide (data = ∅) then ret []
   else ret ((fun kv => inventory_response kv.2) <$> map_to_list data))%handler.

Definition purchase_product (pid : string) (quantity : Z) : M PurchaseResponse :=
  (let! data := load_data in
   match data !! pid with
   | None => raise NotFound
   | Some product =>
       if stock_quantity product <? quantity then
         raise (InsufficientStock (stock_quantity product) quantity)
       else
         let product :=
           set_stock_quantity (stock_quantity product - quantity) product in
         let! (product, triggered) := lift (restock_if_needed product) in
         let! _ := save_data (<[pid := product]> data) in
         ret (mkPurchaseResponse (stock_quantity product) triggered)
   end)%handler.

Definition manual_restock (pid : string) : M RestockResponse :=
  (let! data := load_data in
   match data !! pid with
   | None => raise NotFound
   | Some product =>
       let old_stock := stock_quantity product in
       let restock_qty := restock_quantity product in
       let! actual_restock := lift
         (if decide (priority product = high) then
            (let? x := PyFloat.int_mul restock_qty PyFloat.lit_1_2 in
             PyFloat.to_int x)%result
          else if decide (category product = Some high_volume) then
            (let? x := PyFloat.int_mul restock_qty PyFloat.lit_1_1 in
             PyFloat.to_int x)%result
          else Ok restock_qty) in
       let product :=
         set_stock_quantity (stock_quantity product + actual_restock) product in
       let! _ := save_data (<[pid := product]> data) in
       ret (mkRestockResponse pid old_stock (stock_quantity product)
                              actual_restock)
   end)%handler.

(** ** Statements of the specification *)

(** Truncation toward zero of the real products [q * 1.2] and
    [q * 1.1]. *)
Definition trunc_times_1_2 (q : Z) : Z := (q * 12) ÷ 10.
Definition trunc_times_1_1 (q : Z) : Z := (q * 11) ÷ 10.

(** No quantity of the product is negative. *)
Definition nonneg_Product (p : Product) : Prop :=
  0 <= stock_quantity p /\ 0 <= min_threshold p /\ 0 <= restock_quantity p.

Definition store_ok (w : World) : Prop :=
  forall pid p, disk w !! pid = Some p -> nonneg_Product p.

Definition empty_World : World := mkWorld ∅ 0.

(** The states the three mutating handlers reach from the empty store,
    on requests that passed the validators of [models.py]. *)
Inductive reachable : World -> Prop :=
  | reach_empty : reachable empty_World
  | reach_add_product w product :
      reachable w -> valid_Product product ->
      reachable (add_product product w).2
  | reach_purchase_product w pid quantity :
      reachable w -> validate_quantity quantity = true ->
      reachable (purchase_product pid quantity w).2
  | reach_manual_restock w pid :
      reachable w -> reachable (manual_restock pid w).2.

(** Products and stores used in the examples. *)
Definition widget : Product :=
  mkProduct "w1" "widget" 5 10 20 medium (Some low_volume).

Definition gadget : Product :=
  mkProduct "g1" "gadget" 1 0 (2 ^ 1024) high (Some high_volume).

Definition store_of (p : Product) : World :=
  mkWorld {[ product_id p := p ]} 0.

(** ** Statements about the rounding of [SpecFloat] *)

(** What a shift record holds after [k] right shifts of [m]: the
    quotient, the last bit shifted out, and whether anything below
    that bit was set. *)
Definition Shifted (m k : Z) (mrs : shr_record) : Prop :=
  0 <= shr_m mrs /\
  exists t,
    m = shr_m mrs * 2 ^ k + (if shr_r mrs then 2 ^ (k - 1) else 0) + t /\
    0 <= t /\ (t = 0 \/ t < 2 ^ (k - 1)) /\
    shr_s mrs = (0 <? t) /\ (shr_r mrs = true -> 1 <= k).

(** The sign of a double is not negative. *)
Definition nonneg (f : spec_float) : Prop :=
  match f with
  | S754_zero _ => True
  | S754_infinity s => s = false
  | S754_nan => True
  | S754_finite s _ _ => s = false
  end.

(** ** Further statements about the handlers *)

(** What the creation rules of [add_product] leave in a stored record:
    it is filed under its own identifier, its category is the one its
    restock quantity gives, and a high priority comes with a threshold of
    at least 10. *)
Definition wf_Product (pid : string) (p : Product) : Prop :=
  product_id p = pid /\
  category p =
    Some (if restock_quantity p >? 50 then high_volume else low_volume) /\
  (priority p = high -> 10 <= min_threshold p).

Definition store_wf (w : World) : Prop :=
  forall pid p, disk w !! pid = Some p -> wf_Product pid p.

(** The store after [n] calls of [manual_restock] in a row. *)
Fixpoint manual_restock_times (n : nat) (pid : string) (w : World) : World :=
  match n with
  | O => w
  | S n' => manual_restock_times n' pid (manual_restock pid w).2
  end.

(** The restock decision and the restock amount written in integers. *)
Definition restock_rule (p : Product) : bool :=
  if stock_quantity p =? 0 then true
  else if stock_quantity p >=? min_threshold p then false
  else match priority p with
       | high => true
       | medium => stock_quantity p * 2 <=? min_threshold p
       | low => stock_quantity p * 4 <=? min_threshold p
       end.

Definition restock_amount (p : Product) : Z :=
  if decide (priority p = high) then restock_quantity p * 6 / 5
  else if decide (category p = Some high_volume)
       then restock_quantity p * 11 / 10
       else restock_quantity p.

(** ** The double nearest to an integer *)

(** [t] rounded to 53 significant bits, to nearest and ties to even,
    written with integer division only: [k] bits are dropped, [q] is
    what is kept and [r] what is dropped. *)
Definition round_half_even (t k : Z) : Z :=
  let q := t / 2 ^ k in
  let r := t mod 2 ^ k in
  if 2 * r <? 2 ^ k then q
  else if 2 ^ k <? 2 * r then q + 1
  else if Z.even q then q else q + 1.

Definition nearest_double (t : Z) : Z :=
  let k := Z.max 0 (Z.log2 t + 1 - 53) in
  round_half_even t k * 2 ^ k.

(** The first integer that is too large for a double. *)
Definition double_limit : Z := 2 ^ 1024 - 2 ^ 970.

(** ** The store when [save_data] can fail *)

(** What one call of [save_data] does (lines 35-43): it writes the
    file; or [open] raises and the file is as it was; or [json.dump]
    raises after [open(DATA_FILE, "w")] has emptied the file, and what is
    left is not a JSON document, which [load_data] reads as the empty
    dictionary (lines 31-33).  In the last two cases the exception is
    logged and raised again. *)
Inductive save_outcome : Type := written | open_fails | dump_fails.

(** An exception of the handler itself, or the one [save_data] raised
    again. *)
Inductive io_error : Type :=
  | Raised (e : error)
  | PersistenceError.

Inductive io_result (A : Type) : Type :=
  | Answered (a : A)
  | Failed (e : io_error).
Arguments Answered {A} a.
Arguments Failed {A} e.

Definition IO (A : Type) : Type := World -> io_result A * World.

Definition io_ret {A} (a : A) : IO A := fun w => (Answered a, w).

Definition io_raise {A} (e : error) : IO A := fun w => (Failed (Raised e), w).

Definition io_bind {A B} (m : IO A) (k : A -> IO B) : IO B :=
  fun w =>
    match m w with
    | (Answered a, w') => k a w'
    | (Failed e, w') => (Failed e, w')
    end.

Definition io_lift {A} (r : result A) : IO A :=
  fun w =>
    match r with
    | Ok a => (Answered a, w)
    | Err e => (Failed (Raised e), w)
    end.

Declare Scope io_scope.
Delimit Scope io_scope with io.
Notation "'do!' x ':=' m 'in' k" :=
  (io_bind m (fun x => k))
  (at level 10, x pattern, m at level 100, k at level 200)
  : io_scope.

Definition load_data_io : IO (gmap string Product) :=
  fun w => (Answered (disk w), w).

Definition save_data_io (o : save_outcome) (data : gmap string Product)
    : IO unit :=
  fun w =>
    match o with
    | written => (Answered tt, mkWorld data (S (saves w)))
    | open_fails => (Failed PersistenceError, mkWorld (disk w) (S (saves w)))
    | dump_fails => (Failed PersistenceError, mkWorld ∅ (S (saves w)))
    end.

(** The three mutating handlers of [main.py] over that store; [o] is
    what their one call of [save_data] does, if they reach it. *)
Definition add_product_io (o : save_outcome) (product : Product)
    : IO Product :=
  (do! data := load_data_io in
   if decide (is_Some (data !! product_id product))
   then io_raise AlreadyExists
   else
     let product :=
       if bool_decide (priority product = high) && (min_threshold product <? 10)
       then set_min_threshold 10 product else product in
     let product :=
       set_category
         (Some (if restock_quantity product >? 50 then high_volume
                else low_volume)) product in
     do! _ := save_data_io o (<[product_id product := product]> data) in
     io_ret product)%io.

Definition purchase_product_io
    (o : save_outcome) (pid : string) (quantity : Z) : IO PurchaseResponse :=
  (do! data := load_data_io in
   match data !! pid with
   | None => io_raise NotFound
   | Some product =>
       if stock_quantity product <? quantity then
         io_raise (InsufficientStock (stock_quantity product) quantity)
       else
         let product :=
           set_stock_quantity (stock_quantity product - quantity) product in
         do! (product, triggered) := io_lift (restock_if_needed product) in
         do! _ := save_data_io o (<[pid := product]> data) in
         io_ret (mkPurchaseResponse (stock_quantity product) triggered)
   end)%io.

Definition manual_restock_io (o : save_outcome) (pid : string)
    : IO RestockResponse :=
  (do! data := load_data_io in
   match data !! pid with
   | None => io_raise NotFound
   | Some product =>
       let old_stock := stock_quantity product in
       let restock_qty := restock_quantity product in
       do! actual_restock := io_lift
         (if decide (priority product = high) then
            (let? x := PyFloat.int_mul restock_qty PyFloat.lit_1_2 in
             PyFloat.to_int x)%result
          else if decide (category product = Some high_volume) then
            (let? x := PyFloat.int_mul restock_qty PyFloat.lit_1_1 in
             PyFloat.to_int x)%result
          else Ok restock_qty) in
       let product :=
         set_stock_quantity (stock_quantity product + actual_restock) product in
       do! _ := save_data_io o (<[pid := product]> data) in
       io_ret (mkRestockResponse pid old_stock (stock_quantity product)
                                 actual_restock)
   end)%io.

(** What a handler that saves last, once, becomes when the save can
    fail: [r] is what it does over a store that cannot. *)
Definition under_outcome {A}
    (o : save_outcome) (w : World) (r : result A * World)
    : io_result A * World :=
  match r with
  | (Ok a, w') =>
      match o with
      | written => (Answered a, w')
      | open_fails => (Failed PersistenceError, mkWorld (disk w) (S (saves w)))
      | dump_fails => (Failed PersistenceError, mkWorld ∅ (S (saves w)))
      end
  | (Err e, _) => (Failed (Raised e), w)
  end.

(** How a handler over the failing store stands to the same handler over
    the store that cannot fail: it answers only when the file was
    written, with the same answer and store, after one call of
    [save_data]; it raises an exception of its own only when the other
    does, and then has not touched the file nor called [save_data]; and
    it raises [PersistenceError] only when the other answers and the one
    call of [save_data] failed, and then the file is what that failure
    left. *)
Definition saves_once {A}
    (o : save_outcome) (w : World)
    (ideal : result A * World) (real : io_result A * World) : Prop :=
  match real with
  | (Answered a, w') =>
      o = written /\ ideal = (Ok a, w') /\ saves w' = S (saves w)
  | (Failed (Raised e), w') => ideal.1 = Err e /\ w' = w
  | (Failed PersistenceError, w') =>
      o <> written /\ (exists a, ideal.1 = Ok a) /\
      saves w' = S (saves w) /\
      disk w' = match o with dump_fails => ∅ | _ => disk w end
  end.

(** * Proofs *)

(** ** Rounding of doubles *)

Module Rounding.

(** Number of binary digits. *)
Lemma digits2_pos_bounds (p : positive) :
  2 ^ (Z.pos (digits2_pos p) - 1) <= Z.pos p < 2 ^ Z.pos (digits2_pos p).
Proof.
  induction p as [p IH | p IH |]; cbn [digits2_pos].
  - rewrite Pos2Z.inj_succ, Z.pow_succ_r by lia.
    replace (Z.succ (Z.pos (digits2_pos p)) - 1)
      with (Z.succ (Z.pos (digits2_pos p) - 1)) by lia.
    rewrite Z.pow_succ_r by lia. lia.
  - rewrite Pos2Z.inj_succ, Z.pow_succ_r by lia.
    replace (Z.succ (Z.pos (digits2_pos p)) - 1)
      with (Z.succ (Z.pos (digits2_pos p) - 1)) by lia.
    rewrite Z.pow_succ_r by lia. lia.
  - cbn. lia.
Qed.

Lemma pow2_window_unique (x a b : Z) :
  2 ^ (a - 1) <= x < 2 ^ a -> 2 ^ (b - 1) <= x < 2 ^ b ->
  1 <= a -> 1 <= b -> a = b.
Proof.
  intros Ha Hb H1a H1b.
  destruct (Z.lt_trichotomy a b) as [Hlt | [Heq | Hgt]]; [| exact Heq |].
  - assert (2 ^ a <= 2 ^ (b - 1)) by (apply Z.pow_le_mono_r; lia). lia.
  - assert (2 ^ b <= 2 ^ (a - 1)) by (apply Z.pow_le_mono_r; lia). lia.
Qed.

Lemma digits2_pos_unique (p : positive) (d : Z) :
  1 <= d -> 2 ^ (d - 1) <= Z.pos p < 2 ^ d -> Z.pos (digits2_pos p) = d.
Proof.
  intros Hd Hp.
  apply (pow2_window_unique (Z.pos p)); try lia.
  apply digits2_pos_bounds.
Qed.

Lemma pos_iter_xO (p c : positive) :
  Z.pos (Pos.iter xO p c) = Z.pos p * 2 ^ Z.pos c.
Proof.
  revert p. induction c as [| c IH] using Pos.peano_ind; intros p.
  - cbn. lia.
  - rewrite Pos.iter_succ, Pos2Z.inj_succ, Z.pow_succ_r by lia.
    rewrite Pos2Z.inj_xO, IH. lia.
Qed.

Lemma Shifted_init (m : Z) :
  0 <= m -> Shifted m 0 (shr_record_of_loc m loc_Exact).
Proof.
  intros Hm. split; [exact Hm |]. exists 0. cbn.
  repeat split; try lia; try discriminate.
Qed.

Lemma Shifted_shr_1 (m k : Z) (mrs : shr_record) :
  0 <= k -> Shifted m k mrs -> Shifted m (k + 1) (shr_1 mrs).
Proof.
  intros Hk [Hm (t & Heq & Ht0 & Ht & Hs & Hr)].
  destruct mrs as [m' r s]; cbn [shr_m shr_r shr_s] in *.
  assert (Hpow : 2 ^ (k + 1) = 2 * 2 ^ k) by (rewrite Z.pow_add_r; lia).
  assert (Hk1 : k + 1 - 1 = k) by lia.
  assert (Hpos : 0 < 2 ^ k) by (apply Z.pow_pos_nonneg; lia).
  assert (Hhalf : 1 <= k -> 2 ^ k = 2 * 2 ^ (k - 1)).
  { intros H1. replace k with (Z.succ (k - 1)) at 1 by lia.
    rewrite Z.pow_succ_r; lia. }
  assert (Hhalf0 : 1 <= k -> 0 < 2 ^ (k - 1))
    by (intros; apply Z.pow_pos_nonneg; lia).
  set (t' := (if r then 2 ^ (k - 1) else 0) + t).
  assert (Ht' : 0 <= t' /\ (t' = 0 \/ t' < 2 ^ k) /\ (r || s) = (0 <? t')).
  { subst t'. destruct r.
    - specialize (Hr eq_refl). specialize (Hhalf Hr). specialize (Hhalf0 Hr).
      repeat split; [lia | right; lia |].
      symmetry. cbn. apply Z.ltb_lt. lia.
    - assert (Hle : 2 ^ (k - 1) <= 2 ^ k).
      { destruct (Z.eq_dec k 0) as [-> | Hne]; [cbn; lia |].
        assert (1 <= k) by lia. specialize (Hhalf H). lia. }
      repeat split; [lia | destruct Ht; [left | right]; lia |].
      cbn. rewrite Hs. f_equal. }
  destruct Ht' as (Ht'0 & Ht'1 & Ht's).
  destruct m' as [| [p | p |] |]; cbn [shr_1 shr_m shr_r shr_s]; try lia.
  all: unfold Shifted; cbn [shr_m shr_r shr_s].
  all: split; [lia |]; exists t'; rewrite Hk1, Hpow.
  all: repeat split; try assumption; try lia.
Qed.

Lemma Shifted_iter_pos (n : positive) (m k : Z) (mrs : shr_record) :
  0 <= k -> Shifted m k mrs ->
  Shifted m (k + Z.pos n) (SpecFloat.iter_pos shr_1 n mrs).
Proof.
  revert k mrs.
  induction n as [n IH | n IH |]; intros k mrs Hk H; cbn [SpecFloat.iter_pos].
  - replace (k + Z.pos n~1) with (k + 1 + Z.pos n + Z.pos n) by lia.
    apply IH; [lia |]. apply IH; [lia |]. apply Shifted_shr_1; assumption.
  - replace (k + Z.pos n~0) with (k + Z.pos n + Z.pos n) by lia.
    apply IH; [lia |]. apply IH; assumption.
  - apply Shifted_shr_1; assumption.
Qed.

Lemma Shifted_shr (m k e : Z) :
  0 <= m -> 0 <= k ->
  exists mrs, shr (shr_record_of_loc m loc_Exact) e k = (mrs, e + k) /\
              Shifted m k mrs.
Proof.
  intros Hm Hk. destruct k as [| n | n]; try lia.
  - exists (shr_record_of_loc m loc_Exact). split.
    + cbn. f_equal. lia.
    + apply Shifted_init, Hm.
  - exists (SpecFloat.iter_pos shr_1 n (shr_record_of_loc m loc_Exact)). split.
    + reflexivity.
    + apply (Shifted_iter_pos n m 0); [lia | apply Shifted_init, Hm].
Qed.

(** Rounding the shifted mantissa to nearest, ties to even, gives a
    multiple of [2^k] at distance at most [2^k / 2] from [m]. *)
Lemma Shifted_round_nearest_even (m k : Z) (mrs : shr_record) :
  0 <= k -> Shifted m k mrs ->
  let R := round_nearest_even (shr_m mrs) (loc_of_shr_record mrs) in
  shr_m mrs <= R <= shr_m mrs + 1 /\
  shr_m mrs * 2 ^ k <= m < (shr_m mrs + 1) * 2 ^ k /\
  - 2 ^ k <= 2 * (R * 2 ^ k - m) <= 2 ^ k.
Proof.
  intros Hk [Hm (t & Heq & Ht0 & Ht & Hs & Hr)].
  destruct mrs as [m' r s]; cbn [shr_m shr_r shr_s] in *.
  assert (Hpos : 0 < 2 ^ k) by (apply Z.pow_pos_nonneg; lia).
  assert (Hhalf : 1 <= k -> 2 ^ k = 2 * 2 ^ (k - 1)).
  { intros H1. replace k with (Z.succ (k - 1)) at 1 by lia.
    rewrite Z.pow_succ_r; lia. }
  assert (Hhalf0 : 1 <= k -> 0 < 2 ^ (k - 1))
    by (intros; apply Z.pow_pos_nonneg; lia).
  assert (Hk0 : k = 0 -> t = 0).
  { intros ->. destruct Ht as [Ht | Ht]; [lia |]. cbn in Ht. lia. }
  destruct r.
  - specialize (Hr eq_refl). specialize (Hhalf Hr). specialize (Hhalf0 Hr).
    assert (t < 2 ^ (k - 1)) by lia.
    destruct s; cbn [loc_of_shr_record round_nearest_even].
    + symmetry in Hs. apply Z.ltb_lt in Hs. nia.
    + symmetry in Hs. apply Z.ltb_ge in Hs.
      destruct (Z.even m'); nia.
  - destruct (Z.eq_dec k 0) as [-> | Hne].
    + specialize (Hk0 eq_refl). subst t.
      rewrite Z.ltb_irrefl in Hs. subst s.
      cbn [loc_of_shr_record round_nearest_even]. cbn in *. lia.
    + assert (Hk1 : 1 <= k) by lia.
      specialize (Hhalf Hk1). specialize (Hhalf0 Hk1).
      assert (t < 2 ^ (k - 1)) by lia.
      destruct s; cbn [loc_of_shr_record round_nearest_even]; nia.
Qed.

(** [binary_round_aux] on a mantissa of at least 53 digits whose
    rounded exponent stays in the normal range: the result is the
    multiple of [2^(d-53)] nearest to the mantissa, renormalised to 53
    digits, or an infinity when the exponent passes 971. *)
Lemma binary_round_aux_normal (sx : bool) (p : positive) (ex : Z) :
  let d := Z.pos (digits2_pos p) in
  53 <= d -> -1074 <= ex + d - 53 ->
  exists (m' : positive) (e' : Z),
    binary_round_aux 53 1024 sx (Z.pos p) ex loc_Exact =
      (if e' <=? 971 then S754_finite sx m' e' else S754_infinity sx) /\
    2 ^ 52 <= Z.pos m' < 2 ^ 53 /\
    ex + (d - 53) <= e' <= ex + (d - 53) + 1 /\
    exists v,
      Z.pos m' * 2 ^ (e' - ex) = v * 2 ^ (d - 53) /\
      - 2 ^ (d - 53) <= 2 * (v * 2 ^ (d - 53) - Z.pos p) <= 2 ^ (d - 53).
Proof.
  intros d Hd Hn.
  pose proof (digits2_pos_bounds p) as Hp. fold d in Hp.
  set (k := d - 53) in *. assert (Hk : 0 <= k) by lia.
  assert (Hpos : 0 < 2 ^ k) by (apply Z.pow_pos_nonneg; lia).
  assert (Hlo : 2 ^ (d - 1) = 2 ^ 52 * 2 ^ k).
  { rewrite <- Z.pow_add_r by lia. f_equal. lia. }
  assert (Hhi : 2 ^ d = 2 ^ 53 * 2 ^ k).
  { rewrite <- Z.pow_add_r by lia. f_equal. lia. }
  destruct (Shifted_shr (Z.pos p) k ex) as (mrs & Hshr & HS); [lia | lia |].
  pose proof (Shifted_round_nearest_even _ _ _ Hk HS) as (HR1 & HR2 & HR3).
  cbv zeta in HR1, HR3.
  set (R := round_nearest_even (shr_m mrs) (loc_of_shr_record mrs)) in *.
  assert (Hm52 : 2 ^ 52 <= shr_m mrs < 2 ^ 53) by nia.
  unfold binary_round_aux, shr_fexp. cbn [Zdigits2]. fold d.
  replace (fexp 53 1024 (d + ex) - ex) with k
    by (unfold fexp, emin; lia).
  rewrite Hshr. fold R.
  destruct (Z.eq_dec R (2 ^ 53)) as [HR | HR].
  - (* the rounding carried into a 54th digit *)
    rewrite HR. change (2 ^ 53) with (Z.pos 9007199254740992).
    change (1024 - 53) with 971.
    cbn [shr_record_of_loc Zdigits2].
    change (Z.pos (digits2_pos 9007199254740992)) with 54.
    replace (fexp 53 1024 (54 + (ex + k)) - (ex + k)) with 1
      by (unfold fexp, emin; lia).
    cbn [shr SpecFloat.iter_pos shr_1 shr_m].
    exists 4503599627370496%positive, (ex + k + 1).
    split; [reflexivity |]. split; [lia |]. split; [lia |].
    exists R. split.
    + rewrite HR. replace (ex + k + 1 - ex) with (k + 1) by lia.
      rewrite Z.pow_add_r by lia. lia.
    + lia.
  - assert (HR53 : 2 ^ 52 <= R < 2 ^ 53) by lia.
    destruct R as [| r |] eqn:ER; try lia.
    change (1024 - 53) with 971.
    cbn [shr_record_of_loc Zdigits2].
    rewrite (digits2_pos_unique r 53) by lia.
    replace (fexp 53 1024 (53 + (ex + k)) - (ex + k)) with 0
      by (unfold fexp, emin; lia).
    cbn [shr shr_m].
    exists r, (ex + k).
    split; [reflexivity |]. split; [lia |]. split; [lia |].
    exists (Z.pos r). split.
    + f_equal. f_equal. lia.
    + lia.
Qed.

(** Integers below [2^53] convert exactly. *)
Lemma of_int_exact (q : Z) :
  0 < q < 2 ^ 53 ->
  exists (m : positive) (e : Z),
    PyFloat.of_int q = Ok (S754_finite false m e) /\
    2 ^ 52 <= Z.pos m < 2 ^ 53 /\ -52 <= e <= 0 /\
    Z.pos m = q * 2 ^ (- e).
Proof.
  intros Hq. destruct q as [| p |]; try lia.
  pose proof (digits2_pos_bounds p) as Hp.
  set (d := Z.pos (digits2_pos p)) in *.
  assert (Hd : 1 <= d <= 53).
  { split; [subst d; lia |].
    destruct (Z_le_gt_dec d 53) as [H | H]; [exact H |].
    assert (2 ^ 53 <= 2 ^ (d - 1)) by (apply Z.pow_le_mono_r; lia). lia. }
  assert (Hal : exists mz : positive,
             shl_align p 0 (fexp 53 1024 (d + 0)) = (mz, d - 53) /\
             Z.pos mz = Z.pos p * 2 ^ (53 - d)).
  { replace (fexp 53 1024 (d + 0)) with (d - 53)
      by (unfold fexp, emin; lia).
    unfold shl_align. destruct (d - 53 - 0) as [| c | c] eqn:Ec; try lia.
    - exists p. split; [f_equal; lia |].
      replace (53 - d) with 0 by lia. lia.
    - exists (Pos.iter xO p c). split; [reflexivity |].
      rewrite pos_iter_xO. f_equal. f_equal. lia. }
  destruct Hal as (mz & Hal & Hmz).
  assert (Hmz53 : 2 ^ 52 <= Z.pos mz < 2 ^ 53).
  { rewrite Hmz.
    assert (E1 : 2 ^ 52 = 2 ^ (d - 1) * 2 ^ (53 - d))
      by (rewrite <- Z.pow_add_r by lia; f_equal; lia).
    assert (E2 : 2 ^ 53 = 2 ^ d * 2 ^ (53 - d))
      by (rewrite <- Z.pow_add_r by lia; f_equal; lia).
    assert (0 < 2 ^ (53 - d)) by (apply Z.pow_pos_nonneg; lia).
    rewrite E1, E2. nia. }
  pose proof (digits2_pos_unique mz 53 ltac:(lia) Hmz53) as Hdz.
  destruct (binary_round_aux_normal false mz (d - 53))
    as (m' & e' & Hres & Hm' & He' & v & Hv & Hnear);
    rewrite ?Hdz; try lia.
  rewrite Hdz in He', Hv, Hnear.
  replace (53 - 53) with 0 in * by lia.
  change (2 ^ 0) with 1 in *.
  assert (He : e' = d - 53).
  { destruct (Z.eq_dec e' (d - 53)) as [E | E]; [exact E |].
    assert (E' : e' - (d - 53) = 1) by lia. rewrite E' in Hv.
    change (2 ^ 1) with 2 in Hv. lia. }
  subst e'. replace (d - 53 - (d - 53)) with 0 in Hv by lia.
  change (2 ^ 0) with 1 in Hv.
  assert (Hmm : m' = mz) by lia. subst m'.
  exists mz, (d - 53).
  split.
  - unfold PyFloat.of_int, binary_normalize, binary_round.
    fold d. change PyFloat.prec with 53. change PyFloat.emax with 1024.
    rewrite Hal, Hres.
    replace (d - 53 <=? 971) with true by (symmetry; apply Z.leb_le; lia).
    reflexivity.
  - split; [exact Hmz53 |]. split; [lia |].
    rewrite Hmz. f_equal. f_equal. lia.
Qed.

(** The product of two normal doubles. *)
Lemma mul_normal (mx my : positive) (ex ey : Z) :
  2 ^ 52 <= Z.pos mx < 2 ^ 53 -> 2 ^ 52 <= Z.pos my < 2 ^ 53 ->
  -1126 <= ex + ey ->
  exists (m' : positive) (e' k v : Z),
    (k = 52 /\ Z.pos mx * Z.pos my < 2 ^ 105 \/
     k = 53 /\ 2 ^ 105 <= Z.pos mx * Z.pos my) /\
    PyFloat.mul (S754_finite false mx ex) (S754_finite false my ey) =
      (if e' <=? 971 then S754_finite false m' e'
       else S754_infinity false) /\
    2 ^ 52 <= Z.pos m' < 2 ^ 53 /\
    ex + ey + k <= e' <= ex + ey + k + 1 /\
    Z.pos m' * 2 ^ (e' - (ex + ey)) = v * 2 ^ k /\
    - 2 ^ k <= 2 * (v * 2 ^ k - Z.pos mx * Z.pos my) <= 2 ^ k.
Proof.
  intros Hx Hy He.
  assert (Hprod : 2 ^ 104 <= Z.pos (mx * my) < 2 ^ 106).
  { rewrite Pos2Z.inj_mul.
    change (2 ^ 104) with (2 ^ 52 * 2 ^ 52).
    change (2 ^ 106) with (2 ^ 53 * 2 ^ 53). nia. }
  assert (Hd : Z.pos (digits2_pos (mx * my)) = 105 /\
                 Z.pos (mx * my) < 2 ^ 105 \/
               Z.pos (digits2_pos (mx * my)) = 106 /\
                 2 ^ 105 <= Z.pos (mx * my)).
  { destruct (Z_lt_ge_dec (Z.pos (mx * my)) (2 ^ 105)) as [H | H].
    - left. split; [| exact H]. apply digits2_pos_unique; [lia |].
      change (105 - 1) with 104. lia.
    - right. split; [| lia]. apply digits2_pos_unique; [lia |].
      change (106 - 1) with 105. lia. }
  destruct (binary_round_aux_normal false (mx * my) (ex + ey))
    as (m' & e' & Hres & Hm' & He' & v & Hv & Hnear); [lia | lia |].
  exists m', e', (Z.pos (digits2_pos (mx * my)) - 53), v.
  rewrite <- Pos2Z.inj_mul.
  split; [lia |]. split; [exact Hres |]. split; [exact Hm' |].
  split; [lia |]. split; [exact Hv |]. exact Hnear.
Qed.

(** Truncating a positive double whose value is [V * 2^ex], [ex <= 0]. *)
Lemma to_int_scaled (m' : positive) (e' ex V : Z) :
  ex <= 0 -> ex <= e' -> Z.pos m' * 2 ^ (e' - ex) = V ->
  PyFloat.to_int (S754_finite false m' e') = Ok (V / 2 ^ (- ex)).
Proof.
  intros Hex He HV. unfold PyFloat.to_int. cbn [cond_Zopp]. f_equal.
  destruct (0 <=? e') eqn:E.
  - apply Z.leb_le in E. subst V.
    replace (e' - ex) with (e' + - ex) by lia.
    rewrite Z.pow_add_r, Z.mul_assoc by lia.
    rewrite Z.div_mul; [reflexivity |].
    apply Z.pow_nonzero; lia.
  - apply Z.leb_gt in E. subst V.
    replace (2 ^ (- ex)) with (2 ^ (- e') * 2 ^ (e' - ex))
      by (rewrite <- Z.pow_add_r by lia; f_equal; lia).
    rewrite Z.div_mul_cancel_r; [reflexivity | |];
      apply Z.pow_nonzero; lia.
Qed.

(** [int(q * y)] for an integer [0 < q < 2^52] and a double [y] in
    [[1, 2)] with mantissa [my]: the exact product [q * my / 2^52] is
    rounded to a multiple [v * K] of [K / (2^52 * 2^s)] before it is
    truncated, where [2^s] scales [q] to 53 digits. *)
Lemma int_mul_to_int (q : Z) (my : positive) :
  0 < q < 2 ^ 52 -> 2 ^ 52 <= Z.pos my < 2 ^ 53 ->
  exists s K w v : Z,
    1 <= s <= 52 /\ 2 ^ 52 <= q * 2 ^ s < 2 ^ 53 /\
    (K = 2 ^ 52 \/ K = 2 ^ 53 /\ 2 ^ 105 <= q * 2 ^ s * Z.pos my) /\
    0 < w /\ 2 ^ 52 * 2 ^ s = K * w /\
    - K <= 2 * (v * K - q * 2 ^ s * Z.pos my) <= K /\
    (let? x := PyFloat.int_mul q (S754_finite false my (-52)) in
     PyFloat.to_int x)%result = Ok (v * K / (2 ^ 52 * 2 ^ s)).
Proof.
  intros Hq Hy.
  destruct (of_int_exact q) as (mq & eq & Hof & Hmq & Heq & Hval); [lia |].
  assert (Hs : 1 <= - eq).
  { destruct (Z.eq_dec eq 0) as [-> | Hne]; [| lia].
    cbn in Hval. lia. }
  destruct (mul_normal mq my eq (-52) Hmq Hy)
    as (m' & e' & k & v & Hk & Hmul & Hm' & He' & Hv & Hnear); [lia |].
  exists (- eq), (2 ^ k), (2 ^ (52 - eq - k)), v.
  split; [lia |]. split; [rewrite <- Hval; exact Hmq |].
  split; [destruct Hk as [[-> _] | [-> Hbig]];
          [left | right; rewrite <- Hval]; auto |].
  split; [apply Z.pow_pos_nonneg; lia |].
  split; [rewrite <- !Z.pow_add_r by lia; f_equal; lia |].
  split; [rewrite <- Hval; exact Hnear |].
  unfold PyFloat.int_mul. rewrite Hof. cbn [result_bind]. rewrite Hmul.
  replace (e' <=? 971) with true by (symmetry; apply Z.leb_le; lia).
  rewrite (to_int_scaled m' e' (eq + -52) (v * 2 ^ k)
             ltac:(lia) ltac:(lia) Hv).
  f_equal. f_equal. rewrite <- Z.pow_add_r by lia. f_equal. lia.
Qed.

(** The mantissas of the literals [1.2] and [1.1]. *)
Lemma lit_1_2_mantissa : 5 * 5404319552844595 = 6 * 2 ^ 52 - 1.
Proof. reflexivity. Qed.

Lemma lit_1_1_mantissa : 10 * 4953959590107546 = 11 * 2 ^ 52 + 4.
Proof. reflexivity. Qed.

Lemma pow2_ge (s a : Z) : 0 <= a -> 2 ^ a < 2 ^ s -> 2 ^ (a + 1) <= 2 ^ s.
Proof.
  intros Ha H. apply Z.pow_le_mono_r; [lia |].
  destruct (Z_lt_ge_dec a s) as [Hlt | Hge]; [lia |].
  assert (2 ^ s <= 2 ^ a) by (apply Z.pow_le_mono_r; lia). lia.
Qed.

Theorem int_mul_1_2_trunc (q : Z) :
  0 <= q < 2 ^ 51 ->
  (let? x := PyFloat.int_mul q PyFloat.lit_1_2 in
   PyFloat.to_int x)%result = Ok (q * 6 / 5).
Proof.
  intros Hq. destruct (Z.eq_dec q 0) as [-> | Hq0]; [reflexivity |].
  destruct (int_mul_to_int q 5404319552844595)
    as (s & K & w & v & Hs & HC & HK & Hw & HW & Hnear & Hres);
    [lia | lia |].
  unfold PyFloat.lit_1_2. rewrite Hres. f_equal.
  set (S := 2 ^ s) in *. set (W := 2 ^ 52 * S) in *.
  assert (HS4 : 2 ^ 2 <= S).
  { apply (pow2_ge s 1); [lia |]. change (2 ^ 1) with 2.
    fold S. nia. }
  pose proof (Z.div_mod (q * 6) 5 ltac:(lia)) as Hdm.
  pose proof (Z.mod_pos_bound (q * 6) 5 ltac:(lia)) as Hr.
  set (n := q * 6 / 5) in *. set (r := (q * 6) mod 5) in *.
  assert (HnW : 5 * (n * W) + r * W = 6 * 2 ^ 52 * (q * S)).
  { unfold W. nia. }
  assert (HrW : 0 <= r * W <= 4 * W) by nia.
  assert (Hr1 : r = 0 \/ W <= r * W) by nia.
  pose proof lit_1_2_mantissa as HM.
  set (C := q * S) in *.
  set (P := C * 5404319552844595) in *.
  assert (HP : 5 * P = 5 * (n * W) + r * W - C) by (unfold P; lia).
  assert (HK53 : K = 2 ^ 52 \/ K = 2 ^ 53 /\ 2 ^ 52 < C).
  { destruct HK as [HK | [HK Hbig]]; [left; exact HK | right].
    split; [exact HK |]. fold C P in Hbig. unfold P in Hbig. lia. }
  assert (HW54 : 2 ^ 54 <= W) by (unfold W; lia).
  assert (HnK : n * W = n * w * K) by (rewrite HW; ring).
  symmetry. apply (Z.div_unique_pos _ _ _ (v * K - n * W)); [| lia].
  split; [| destruct HK53 as [-> | [-> HC']]; lia].
  destruct Hr1 as [Hr0 | Hr1].
  - assert (v = n * w) by (destruct HK53 as [-> | [-> HC']]; nia).
    nia.
  - assert (0 <= v - n * w) by (destruct HK53 as [-> | [-> HC']]; nia).
    nia.
Qed.

Theorem int_mul_1_1_trunc (q : Z) :
  0 <= q < 2 ^ 48 ->
  (let? x := PyFloat.int_mul q PyFloat.lit_1_1 in
   PyFloat.to_int x)%result = Ok (q * 11 / 10).
Proof.
  intros Hq. destruct (Z.eq_dec q 0) as [-> | Hq0]; [reflexivity |].
  destruct (int_mul_to_int q 4953959590107546)
    as (s & K & w & v & Hs & HC & HK & Hw & HW & Hnear & Hres);
    [lia | lia |].
  unfold PyFloat.lit_1_1. rewrite Hres. f_equal.
  set (S := 2 ^ s) in *. set (W := 2 ^ 52 * S) in *.
  assert (HS32 : 2 ^ 5 <= S).
  { apply (pow2_ge s 4); [lia |]. change (2 ^ 4) with 16.
    fold S. nia. }
  pose proof (Z.div_mod (q * 11) 10 ltac:(lia)) as Hdm.
  pose proof (Z.mod_pos_bound (q * 11) 10 ltac:(lia)) as Hr.
  set (n := q * 11 / 10) in *. set (r := (q * 11) mod 10) in *.
  assert (HnW : 10 * (n * W) + r * W = 11 * 2 ^ 52 * (q * S)).
  { unfold W. nia. }
  assert (HrW : 0 <= r * W <= 9 * W) by nia.
  pose proof lit_1_1_mantissa as HM.
  set (C := q * S) in *.
  set (P := C * 4953959590107546) in *.
  assert (HP : 10 * P = 10 * (n * W) + r * W + 4 * C) by (unfold P; lia).
  assert (HK53 : K = 2 ^ 52 \/ K = 2 ^ 53) by (destruct HK as [? | [? _]]; auto).
  assert (HW57 : 2 ^ 57 <= W) by (unfold W; lia).
  assert (HnK : n * W = n * w * K) by (rewrite HW; ring).
  symmetry. apply (Z.div_unique_pos _ _ _ (v * K - n * W)); [| lia].
  split; [| destruct HK53 as [-> | ->]; lia].
  assert (0 <= v - n * w) by (destruct HK53 as [-> | ->]; nia).
  nia.
Qed.

(** Multiplying by [0.5] or [0.25] only lowers the exponent. *)
Lemma int_mul_pow2 (t c : Z) :
  0 < t < 2 ^ 53 -> 53 <= c <= 54 ->
  exists (m : positive) (e : Z),
    PyFloat.of_int t = Ok (S754_finite false m e) /\
    -52 <= e <= 0 /\ Z.pos m = t * 2 ^ (- e) /\
    PyFloat.int_mul t (S754_finite false 4503599627370496 (- c)) =
      Ok (S754_finite false m (e - (c - 52))).
Proof.
  intros Ht Hc.
  destruct (of_int_exact t Ht) as (m & e & Hof & Hm & He & Hval).
  exists m, e. split; [exact Hof |]. split; [exact He |].
  split; [exact Hval |].
  destruct (mul_normal m 4503599627370496 e (- c) Hm)
    as (m' & e' & k & v & Hk & Hmul & Hm' & He' & Hv & Hnear);
    [change (Z.pos 4503599627370496) with (2 ^ 52); lia | lia |].
  change (Z.pos 4503599627370496) with (2 ^ 52) in *.
  assert (Hk52 : k = 52) by (destruct Hk as [[-> _] | [_ Hbig]]; lia).
  subst k. assert (Hvm : v = Z.pos m) by lia. subst v.
  assert (He'' : e' = e + - c + 52).
  { destruct (Z.eq_dec e' (e + - c + 52)) as [E | E]; [exact E |].
    assert (E' : e' - (e + - c) = 53) by lia. rewrite E' in Hv. lia. }
  subst e'. replace (e + - c + 52 - (e + - c)) with 52 in Hv by lia.
  assert (m' = m) by lia. subst m'.
  unfold PyFloat.int_mul. rewrite Hof. cbn [result_bind]. rewrite Hmul.
  replace (e + - c + 52 <=? 971) with true
    by (symmetry; apply Z.leb_le; lia).
  do 2 f_equal. lia.
Qed.

(** The comparison against a power-of-two fraction of the threshold,
    in integers. *)
Lemma int_le_int_mul_pow2 (n t c : Z) :
  0 < t < 2 ^ 53 -> 53 <= c <= 54 ->
  exists lim,
    PyFloat.int_mul t (S754_finite false 4503599627370496 (- c)) = Ok lim /\
    PyFloat.int_le n lim = (n * 2 ^ (c - 52) <=? t).
Proof.
  intros Ht Hc.
  destruct (int_mul_pow2 t c Ht Hc) as (m & e & _ & He & Hval & Hmul).
  eexists. split; [exact Hmul |].
  unfold PyFloat.int_le, PyFloat.mant. cbn [cond_Zopp].
  replace (0 <=? e - (c - 52)) with false
    by (symmetry; apply Z.leb_gt; lia).
  rewrite Hval.
  replace (- (e - (c - 52))) with ((c - 52) + - e) by lia.
  rewrite Z.pow_add_r, Z.mul_assoc by lia.
  assert (0 < 2 ^ (- e)) by (apply Z.pow_pos_nonneg; lia).
  apply eq_true_iff_eq. rewrite !Z.leb_le. nia.
Qed.

(** Non-negative integers convert to non-negative doubles, and a
    product of non-negative doubles truncates to a non-negative
    integer. *)
Lemma binary_round_aux_sign (sx : bool) (m e : Z) (l : location) :
  match binary_round_aux 53 1024 sx m e l with
  | S754_infinity s | S754_finite s _ _ => s = sx
  | _ => True
  end.
Proof.
  unfold binary_round_aux.
  destruct (shr_fexp 53 1024 m e l) as [mrs' e'].
  destruct (shr_fexp 53 1024 _ e' loc_Exact) as [mrs'' e''].
  destruct (shr_m mrs''); [exact I | | exact I].
  destruct (e'' <=? 1024 - 53); reflexivity.
Qed.

Lemma of_int_nonneg (n : Z) (f : spec_float) :
  0 <= n -> PyFloat.of_int n = Ok f -> nonneg f.
Proof.
  intros Hn. unfold PyFloat.of_int, binary_normalize, binary_round.
  destruct n as [| p |]; try lia.
  - intros [= <-]. exact I.
  - destruct (shl_align p 0 _) as [mz ez].
    pose proof (binary_round_aux_sign false (Z.pos mz) ez loc_Exact) as H.
    change PyFloat.prec with 53. change PyFloat.emax with 1024.
    destruct (binary_round_aux 53 1024 false (Z.pos mz) ez loc_Exact);
      intros [= <-]; cbn; auto.
Qed.

Lemma to_int_mul_nonneg (x y : spec_float) (a : Z) :
  nonneg x -> nonneg y -> PyFloat.to_int (PyFloat.mul x y) = Ok a -> 0 <= a.
Proof.
  intros Hx Hy. unfold PyFloat.mul.
  destruct x as [sx | sx | | sx mx ex], y as [sy | sy | | sy my ey];
    cbn in Hx, Hy; subst; cbn [SFmul xorb PyFloat.to_int];
    try discriminate; try (intros [= <-]; lia).
  pose proof (binary_round_aux_sign false (Z.pos (mx * my)) (ex + ey)
                loc_Exact) as H.
  change PyFloat.prec with 53. change PyFloat.emax with 1024.
  destruct (binary_round_aux 53 1024 false _ _ loc_Exact) as [s | s | | s m e];
    cbn [PyFloat.to_int]; try discriminate; try (intros [= <-]; lia).
  subst s. cbn [cond_Zopp]. intros [= <-].
  destruct (0 <=? e) eqn:E.
  - apply Z.mul_nonneg_nonneg; [lia |]. apply Z.pow_nonneg; lia.
  - apply Z.leb_gt in E.
    apply Z.div_pos; [lia |]. apply Z.pow_pos_nonneg; lia.
Qed.

(** A mantissa that is not negative never rounds to a NaN. *)
Lemma shr_1_nonneg (mrs : shr_record) :
  0 <= shr_m mrs -> 0 <= shr_m (shr_1 mrs).
Proof.
  destruct mrs as [m r s]. cbn [shr_m].
  destruct m as [| [p | p |] |]; cbn; lia.
Qed.

Lemma iter_pos_shr_1_nonneg (n : positive) (mrs : shr_record) :
  0 <= shr_m mrs -> 0 <= shr_m (SpecFloat.iter_pos shr_1 n mrs).
Proof.
  revert mrs.
  induction n as [n IH | n IH |]; intros mrs H; cbn [SpecFloat.iter_pos].
  - apply IH, IH, shr_1_nonneg, H.
  - apply IH, IH, H.
  - apply shr_1_nonneg, H.
Qed.

Lemma shr_fexp_nonneg (m e : Z) (l : location) :
  0 <= m -> 0 <= shr_m (shr_fexp 53 1024 m e l).1.
Proof.
  intros Hm. unfold shr_fexp, shr.
  assert (H0 : 0 <= shr_m (shr_record_of_loc m l))
    by (destruct l as [| []]; exact Hm).
  destruct (fexp 53 1024 (Zdigits2 m + e) - e) as [| n | n];
    cbn [fst]; try exact H0.
  apply iter_pos_shr_1_nonneg, H0.
Qed.

Lemma round_nearest_even_nonneg (m : Z) (l : location) :
  0 <= m -> 0 <= round_nearest_even m l.
Proof.
  intros Hm. destruct l as [| []]; cbn [round_nearest_even];
    try destruct (Z.even m); lia.
Qed.

Lemma binary_round_aux_not_nan (sx : bool) (m e : Z) (l : location) :
  0 <= m -> binary_round_aux 53 1024 sx m e l <> S754_nan.
Proof.
  intros Hm. unfold binary_round_aux.
  pose proof (shr_fexp_nonneg m e l Hm) as H1.
  destruct (shr_fexp 53 1024 m e l) as [mrs' e']. cbn [fst] in H1.
  pose proof (shr_fexp_nonneg _ e' loc_Exact
                (round_nearest_even_nonneg _ (loc_of_shr_record mrs') H1))
    as H2.
  destruct (shr_fexp 53 1024 _ e' loc_Exact) as [mrs'' e''].
  cbn [fst] in H2.
  destruct (shr_m mrs''); [discriminate | | lia].
  destruct (e'' <=? 1024 - 53); discriminate.
Qed.

(** The only exception of [int(n * y)] is [OverflowError]. *)
Lemma of_int_not_nan (n : Z) (f : spec_float) :
  PyFloat.of_int n = Ok f -> f <> S754_nan.
Proof.
  unfold PyFloat.of_int, binary_normalize, binary_round.
  change PyFloat.prec with 53. change PyFloat.emax with 1024.
  destruct n as [| p | p].
  - intros [= <-]. discriminate.
  - destruct (shl_align p 0 _) as [mz ez].
    pose proof (binary_round_aux_not_nan false (Z.pos mz) ez loc_Exact
                  ltac:(lia)) as H.
    destruct (binary_round_aux 53 1024 false (Z.pos mz) ez loc_Exact);
      intros [= <-]; auto.
  - destruct (shl_align p 0 _) as [mz ez].
    pose proof (binary_round_aux_not_nan true (Z.pos mz) ez loc_Exact
                  ltac:(lia)) as H.
    destruct (binary_round_aux 53 1024 true (Z.pos mz) ez loc_Exact);
      intros [= <-]; auto.
Qed.

Lemma int_mul_to_int_error (n : Z) (my : positive) (ey : Z) (e : error) :
  (let? x := PyFloat.int_mul n (S754_finite false my ey) in
   PyFloat.to_int x)%result = Err e ->
  e = OverflowError.
Proof.
  unfold PyFloat.int_mul.
  destruct (PyFloat.of_int n) as [x | e0] eqn:Hx; cbn [result_bind].
  - pose proof (of_int_not_nan n x Hx) as Hnan.
    unfold PyFloat.mul. change PyFloat.prec with 53.
    change PyFloat.emax with 1024.
    destruct x as [s | s | | s m ex]; cbn [SFmul PyFloat.to_int];
      try discriminate; try (intros [= <-]; reflexivity);
      try contradiction.
    pose proof (binary_round_aux_not_nan (xorb s false)
                  (Z.pos (m * my)) (ex + ey) loc_Exact ltac:(lia)) as H.
    destruct (binary_round_aux 53 1024 _ _ _ loc_Exact);
      cbn [PyFloat.to_int]; try discriminate;
      try (intros [= <-]; reflexivity); try contradiction.
  - intros [= <-]. revert Hx. unfold PyFloat.of_int.
    destruct (binary_normalize _ _ _ _ _); try discriminate.
    intros [= <-]. reflexivity.
Qed.

End Rounding.

(** ** The float literals *)

(** Each literal is the double nearest to the decimal it is written as:
    the correctly rounded quotient of two small integers. *)
Lemma literals_nearest :
  SFdiv 53 1024 (binary_normalize 53 1024 1 0 false)
                (binary_normalize 53 1024 2 0 false) = PyFloat.lit_0_5 /\
  SFdiv 53 1024 (binary_normalize 53 1024 1 0 false)
                (binary_normalize 53 1024 4 0 false) = PyFloat.lit_0_25 /\
  SFdiv 53 1024 (binary_normalize 53 1024 12 0 false)
                (binary_normalize 53 1024 10 0 false) = PyFloat.lit_1_2 /\
  SFdiv 53 1024 (binary_normalize 53 1024 11 0 false)
                (binary_normalize 53 1024 10 0 false) = PyFloat.lit_1_1.
Proof. repeat split; vm_compute; reflexivity. Qed.

(** The integers from [2^1024 - 2^970] on do not convert: that one is
    the first to round up to [2^1024]. *)
Lemma of_int_range :
  PyFloat.of_int (2 ^ 1024 - 2 ^ 970 - 1)
  = Ok (S754_finite false 9007199254740991 971) /\
  PyFloat.of_int (2 ^ 1024 - 2 ^ 970) = Err OverflowError.
Proof. split; vm_compute; reflexivity. Qed.

(** ** utils.py *)

Lemma should_restock_out_of_stock (p : Product) :
  stock_quantity p = 0 -> should_restock p = Ok true.
Proof. intros H. unfold should_restock. rewrite H. reflexivity. Qed.

Lemma should_restock_at_threshold (p : Product) :
  stock_quantity p <> 0 -> min_threshold p <= stock_quantity p ->
  should_restock p = Ok false.
Proof.
  intros H0 H. unfold should_restock.
  destruct (Z.eqb_spec (stock_quantity p) 0) as [E | _]; [contradiction |].
  destruct (Z.geb_spec (stock_quantity p) (min_threshold p)) as [_ | E];
    [reflexivity | lia].
Qed.

Lemma should_restock_below (p : Product) :
  stock_quantity p <> 0 -> stock_quantity p < min_threshold p ->
  should_restock p =
    match priority p with
    | high => Ok true
    | medium =>
        (let? lim := PyFloat.int_mul (min_threshold p) PyFloat.lit_0_5 in
         Ok (PyFloat.int_le (stock_quantity p) lim))%result
    | low =>
        (let? lim := PyFloat.int_mul (min_threshold p) PyFloat.lit_0_25 in
         Ok (PyFloat.int_le (stock_quantity p) lim))%result
    end.
Proof.
  intros H0 H. unfold should_restock.
  destruct (Z.eqb_spec (stock_quantity p) 0) as [E | _]; [contradiction |].
  destruct (Z.geb_spec (stock_quantity p) (min_threshold p)) as [E | _];
    [lia |].
  destruct (priority p); try reflexivity.
  f_equal. apply Z.ltb_lt. exact H.
Qed.

(** With a threshold below [2^53], [should_restock] always returns. *)
Lemma should_restock_total (p : Product) :
  0 <= min_threshold p < 2 ^ 53 -> exists b, should_restock p = Ok b.
Proof.
  intros Ht. unfold should_restock.
  destruct (stock_quantity p =? 0); [eauto |].
  destruct (Z.geb_spec (stock_quantity p) (min_threshold p)) as [_ | Hlt];
    [eauto |].
  destruct (Z.eq_dec (min_threshold p) 0) as [E | E].
  - rewrite E. destruct (priority p); cbn; eauto.
  - destruct (Rounding.int_le_int_mul_pow2 (stock_quantity p)
                (min_threshold p) 53 ltac:(lia) ltac:(lia))
      as (l1 & Hm1 & _).
    destruct (Rounding.int_le_int_mul_pow2 (stock_quantity p)
                (min_threshold p) 54 ltac:(lia) ltac:(lia))
      as (l2 & Hm2 & _).
    change (- (53)) with (-53) in Hm1. change (- (54)) with (-54) in Hm2.
    fold PyFloat.lit_0_5 in Hm1. fold PyFloat.lit_0_25 in Hm2.
    destruct (priority p); [eauto | rewrite Hm1 | rewrite Hm2]; cbn; eauto.
Qed.

(** Beyond the range of a double the multiplication raises. *)
Lemma should_restock_overflow :
  should_restock (mkProduct "w1" "widget" 1 (2 ^ 1024) 20 medium None)
  = Err OverflowError.
Proof. vm_compute. reflexivity. Qed.

Lemma trunc_times_1_2_div (q : Z) : 0 <= q -> trunc_times_1_2 q = q * 6 / 5.
Proof.
  intros Hq. unfold trunc_times_1_2.
  rewrite Z.quot_div_nonneg by lia.
  replace (q * 12) with (q * 6 * 2) by lia.
  change 10 with (5 * 2). apply Z.div_mul_cancel_r; lia.
Qed.

Lemma trunc_times_1_1_div (q : Z) : 0 <= q -> trunc_times_1_1 q = q * 11 / 10.
Proof.
  intros Hq. unfold trunc_times_1_1. apply Z.quot_div_nonneg; lia.
Qed.

(** C2, as the code has it. For 0 <= restock_quantity:
    the amount is the truncation of restock_quantity * 1.2 when the
    priority is high and restock_quantity < 2^51; the truncation of
    restock_quantity * 1.1 when the priority is not high, the category
    is high_volume and restock_quantity < 2^48; and restock_quantity
    itself when the priority is not high and the category is not
    high_volume.  So 100 gives 120, 110 and 100. *)
Theorem compute_restock_amount_spec
    (q : Z) (prio : PriorityEnum) (cat : option CategoryEnum) :
  0 <= q ->
  (prio = high -> q < 2 ^ 51 ->
   compute_restock_amount q prio cat = Ok (trunc_times_1_2 q)) /\
  (prio <> high -> cat = Some high_volume -> q < 2 ^ 48 ->
   compute_restock_amount q prio cat = Ok (trunc_times_1_1 q)) /\
  (prio <> high -> cat <> Some high_volume ->
   compute_restock_amount q prio cat = Ok q) /\
  compute_restock_amount 100 high cat = Ok 120 /\
  compute_restock_amount 100 medium (Some high_volume) = Ok 110 /\
  compute_restock_amount 100 low (Some low_volume) = Ok 100.
Proof.
  intros Hq. unfold compute_restock_amount. repeat split.
  - intros -> Hlt. rewrite decide_True by reflexivity.
    rewrite trunc_times_1_2_div by lia.
    apply Rounding.int_mul_1_2_trunc. lia.
  - intros Hp -> Hlt. rewrite decide_False by assumption.
    rewrite decide_True by reflexivity.
    rewrite trunc_times_1_1_div by lia.
    apply Rounding.int_mul_1_1_trunc. lia.
  - intros Hp Hc. rewrite decide_False by assumption.
    rewrite decide_False by assumption. reflexivity.
Qed.

Lemma compute_restock_amount_spec_witness :
  compute_restock_amount 60 high (Some high_volume)
  = Ok (trunc_times_1_2 60).
Proof.
  apply (compute_restock_amount_spec 60 high (Some high_volume));
    [lia | reflexivity | reflexivity].
Defined.

(** C2, as the specification has it, fails: the double nearest to the
    product of 4000000000000004 and 1.2 is 4800000000000005, one more
    than the truncation of the real product 4800000000000004.8. *)
Lemma compute_restock_amount_not_trunc :
  0 <= 4000000000000004 /\
  compute_restock_amount 4000000000000004 high None = Ok 4800000000000005 /\
  trunc_times_1_2 4000000000000004 = 4800000000000004 /\
  compute_restock_amount 4000000000000004 high None
  <> Ok (trunc_times_1_2 4000000000000004).
Proof.
  split; [lia |]. split; [vm_compute; reflexivity |].
  split; [vm_compute; reflexivity |]. vm_compute. discriminate.
Qed.

(** The same for 1.1, and the overflow of a quantity too large for a
    double. *)
Lemma compute_restock_amount_other_failures :
  compute_restock_amount 511775688640119 low (Some high_volume)
  = Ok 562953257504131 /\
  trunc_times_1_1 511775688640119 = 562953257504130 /\
  compute_restock_amount (2 ^ 1024) high None = Err OverflowError.
Proof. repeat split; vm_compute; reflexivity. Qed.

(** The computation of the amount raises nothing but [OverflowError]. *)
Lemma compute_restock_amount_error
    (q : Z) (prio : PriorityEnum) (cat : option CategoryEnum) (e : error) :
  compute_restock_amount q prio cat = Err e -> e = OverflowError.
Proof.
  unfold compute_restock_amount.
  repeat case_decide; try discriminate;
    apply Rounding.int_mul_to_int_error.
Qed.

(** With a quantity below [2^48] the amount is computed and is not
    negative. *)
Lemma compute_restock_amount_total
    (q : Z) (prio : PriorityEnum) (cat : option CategoryEnum) :
  0 <= q < 2 ^ 48 -> exists a, compute_restock_amount q prio cat = Ok a.
Proof.
  intros Hq. unfold compute_restock_amount.
  destruct (decide (prio = high)) as [_ | _];
    [rewrite Rounding.int_mul_1_2_trunc by lia; eauto |].
  destruct (decide (cat = Some high_volume)) as [_ | _];
    [rewrite Rounding.int_mul_1_1_trunc by lia; eauto | eauto].
Qed.

Lemma compute_restock_amount_nonneg
    (q : Z) (prio : PriorityEnum) (cat : option CategoryEnum) (a : Z) :
  0 <= q -> compute_restock_amount q prio cat = Ok a -> 0 <= a.
Proof.
  intros Hq. unfold compute_restock_amount, PyFloat.int_mul.
  destruct (decide (prio = high)) as [_ | _];
    [| destruct (decide (cat = Some high_volume)) as [_ | _]];
    try (intros [= <-]; exact Hq);
    destruct (PyFloat.of_int q) as [x | e] eqn:Hx; cbn [result_bind];
    try discriminate;
    apply Rounding.to_int_mul_nonneg;
    try (apply (Rounding.of_int_nonneg q); assumption); reflexivity.
Qed.

(** C3. For stock >= 0 and threshold >= 0 the status is one of the
    three; it is out_of_stock iff stock = 0, below_threshold iff
    0 < stock < threshold, and ok iff stock > 0 and stock >= threshold. *)
Theorem get_inventory_status_spec (p : Product) :
  0 <= stock_quantity p -> 0 <= min_threshold p ->
  (get_inventory_status p = out_of_stock \/
   get_inventory_status p = below_threshold \/
   get_inventory_status p = ok) /\
  (get_inventory_status p = out_of_stock <-> stock_quantity p = 0) /\
  (get_inventory_status p = below_threshold <->
   0 < stock_quantity p < min_threshold p) /\
  (get_inventory_status p = ok <->
   0 < stock_quantity p /\ min_threshold p <= stock_quantity p).
Proof.
  intros Hs Ht. unfold get_inventory_status.
  destruct (Z.eqb_spec (stock_quantity p) 0) as [E | E];
    [| destruct (Z.ltb_spec (stock_quantity p) (min_threshold p)) as [L | L]];
    repeat split; auto; try discriminate; try lia; intros; exfalso; lia.
Qed.

Lemma get_inventory_status_spec_witness :
  get_inventory_status widget = below_threshold <-> 0 < 5 < 10.
Proof.
  apply (get_inventory_status_spec widget); cbn; lia.
Defined.

Lemma restock_if_needed_not_triggered (p : Product) :
  should_restock p = Ok false -> restock_if_needed p = Ok (p, false).
Proof. intros H. unfold restock_if_needed. rewrite H. reflexivity. Qed.

Lemma restock_if_needed_triggered (p : Product) (a : Z) :
  should_restock p = Ok true ->
  compute_restock_amount (restock_quantity p) (priority p) (category p)
  = Ok a ->
  restock_if_needed p = Ok (set_stock_quantity (stock_quantity p + a) p, true).
Proof.
  intros H Ha. unfold restock_if_needed. rewrite H. cbn. rewrite Ha.
  reflexivity.
Qed.

(** With a threshold below [2^53] and a restock quantity below [2^48]
    the automatic restock returns. *)
Lemma restock_if_needed_total (p : Product) :
  0 <= min_threshold p < 2 ^ 53 -> 0 <= restock_quantity p < 2 ^ 48 ->
  exists r, restock_if_needed p = Ok r.
Proof.
  intros Ht Hq.
  destruct (should_restock_total p Ht) as ([|] & Hb).
  - destruct (compute_restock_amount_total (restock_quantity p)
                (priority p) (category p) Hq) as (a & Ha).
    rewrite (restock_if_needed_triggered p a Hb Ha). eauto.
  - rewrite (restock_if_needed_not_triggered p Hb). eauto.
Qed.

Lemma should_restock_error (p : Product) (e : error) :
  should_restock p = Err e -> e = OverflowError.
Proof.
  unfold should_restock, PyFloat.int_mul, PyFloat.of_int.
  destruct (stock_quantity p =? 0); [discriminate |].
  destruct (stock_quantity p >=? min_threshold p); [discriminate |].
  destruct (priority p); try discriminate;
    destruct (binary_normalize _ _ _ _ _); cbn; try discriminate;
    intros [= <-]; reflexivity.
Qed.

Lemma restock_if_needed_error (p : Product) (e : error) :
  restock_if_needed p = Err e -> e = OverflowError.
Proof.
  unfold restock_if_needed.
  destruct (should_restock p) as [[|] | e0] eqn:Hs; cbn.
  - destruct (compute_restock_amount _ _ _) as [a | e1] eqn:Ha; cbn;
      [discriminate |].
    intros [= <-]. exact (compute_restock_amount_error _ _ _ _ Ha).
  - discriminate.
  - intros [= <-]. exact (should_restock_error _ _ Hs).
Qed.

Lemma restock_if_needed_nonneg (p p' : Product) (b : bool) :
  nonneg_Product p -> restock_if_needed p = Ok (p', b) -> nonneg_Product p'.
Proof.
  intros (Hs & Ht & Hq). unfold restock_if_needed.
  destruct (should_restock p) as [[|] | e]; cbn; try discriminate.
  - destruct (compute_restock_amount _ _ _) as [a | e] eqn:Ha; cbn;
      try discriminate.
    intros [= <- _]. apply compute_restock_amount_nonneg in Ha; [| exact Hq].
    unfold nonneg_Product. cbn. lia.
  - intros [= <- _]. unfold nonneg_Product. auto.
Qed.

(** ** main.py *)

Lemma purchase_product_found
    (w : World) (pid : string) (p : Product) (quantity : Z) :
  disk w !! pid = Some p -> quantity <= stock_quantity p ->
  purchase_product pid quantity w =
    match restock_if_needed
            (set_stock_quantity (stock_quantity p - quantity) p) with
    | Ok (p', triggered) =>
        (Ok (mkPurchaseResponse (stock_quantity p') triggered),
         mkWorld (<[pid := p']> (disk w)) (S (saves w)))
    | Err e => (Err e, w)
    end.
Proof.
  intros Hp Hq. unfold purchase_product, bind, load_data. rewrite Hp.
  destruct (Z.ltb_spec (stock_quantity p) quantity) as [H | _]; [lia |].
  unfold lift.
  destruct (restock_if_needed _) as [[p' triggered] | e]; reflexivity.
Qed.

(** C4, as the code has it. For a stored product and
    0 < quantity <= stock_quantity, the purchase decrements the stock and
    runs the automatic restock on the decremented product: when that
    returns, the purchase succeeds, saves the product and answers with
    its final stock and the flag; when it raises, the purchase fails
    with the same exception and nothing is saved; it returns whenever
    min_threshold < 2^53 and restock_quantity < 2^48 are not negative.
    A purchase that brings the stock to 0 answers with the flag true and
    0 plus the restock amount, when that amount is computed. *)
Theorem purchase_product_spec
    (w : World) (pid : string) (p : Product) (quantity : Z) :
  disk w !! pid = Some p -> 0 < quantity <= stock_quantity p ->
  let p' := set_stock_quantity (stock_quantity p - quantity) p in
  (forall p'' triggered,
     restock_if_needed p' = Ok (p'', triggered) ->
     purchase_product pid quantity w =
       (Ok (mkPurchaseResponse (stock_quantity p'') triggered),
        mkWorld (<[pid := p'']> (disk w)) (S (saves w)))) /\
  (forall e,
     restock_if_needed p' = Err e ->
     purchase_product pid quantity w = (Err e, w) /\ e = OverflowError) /\
  (0 <= min_threshold p < 2 ^ 53 -> 0 <= restock_quantity p < 2 ^ 48 ->
   exists r, (purchase_product pid quantity w).1 = Ok r) /\
  (stock_quantity p = quantity ->
   forall a,
     compute_restock_amount (restock_quantity p) (priority p) (category p)
     = Ok a ->
     purchase_product pid quantity w =
       (Ok (mkPurchaseResponse (0 + a) true),
        mkWorld (<[pid := set_stock_quantity (0 + a) p']> (disk w))
                (S (saves w)))).
Proof.
  intros Hp Hq p'.
  pose proof (purchase_product_found w pid p quantity Hp ltac:(lia)) as HP.
  fold p' in HP. repeat split.
  - intros p'' triggered Hr. rewrite HP, Hr. reflexivity.
  - rewrite HP, H. reflexivity.
  - exact (restock_if_needed_error _ _ H).
  - intros Ht Hrq.
    destruct (restock_if_needed_total p') as ([p'' triggered] & Hr);
      [exact Ht | exact Hrq |].
    rewrite HP, Hr. eauto.
  - intros Hz a Ha.
    assert (H0 : stock_quantity p' = 0) by (cbn; lia).
    rewrite HP, (restock_if_needed_triggered p' a).
    + rewrite H0. reflexivity.
    + apply should_restock_out_of_stock, H0.
    + exact Ha.
Qed.

Lemma purchase_product_spec_witness :
  purchase_product "w1" 5 (store_of widget) =
    (Ok (mkPurchaseResponse (0 + 20) true),
     mkWorld (<[ "w1" := set_stock_quantity (0 + 20)
                           (set_stock_quantity (5 - 5) widget) ]>
                (disk (store_of widget))) 1).
Proof.
  apply (purchase_product_spec (store_of widget) "w1" widget 5);
    [reflexivity | cbn; lia | reflexivity | reflexivity].
Defined.

(** C4, as the specification has it, fails: the last unit of a
    high-priority product whose restock quantity is [2^1024] cannot be
    bought, because the restock amount overflows. *)
Lemma purchase_product_overflow :
  disk (store_of gadget) !! "g1" = Some gadget /\
  0 < 1 <= stock_quantity gadget /\
  purchase_product "g1" 1 (store_of gadget)
  = (Err OverflowError, store_of gadget).
Proof.
  split; [reflexivity |]. split; [cbn; lia |].
  rewrite (purchase_product_found _ _ gadget) by (reflexivity || (cbn; lia)).
  vm_compute. reflexivity.
Qed.

Lemma purchase_product_short
    (w : World) (pid : string) (p : Product) (quantity : Z) :
  disk w !! pid = Some p -> stock_quantity p < quantity ->
  purchase_product pid quantity w =
    (Err (InsufficientStock (stock_quantity p) quantity), w).
Proof.
  intros Hp Hq. unfold purchase_product, bind, load_data. rewrite Hp.
  destruct (Z.ltb_spec (stock_quantity p) quantity) as [_ | H]; [| lia].
  reflexivity.
Qed.

(** C5. A purchase of more than the stock of a stored product fails
    with InsufficientStock, which carries the stock and the quantity
    asked for, and leaves the store as it was. *)
Theorem purchase_product_insufficient
    (w : World) (pid : string) (p : Product) (quantity : Z) :
  disk w !! pid = Some p -> stock_quantity p < quantity ->
  purchase_product pid quantity w =
    (Err (InsufficientStock (stock_quantity p) quantity), w) /\
  disk (purchase_product pid quantity w).2 !! pid = Some p.
Proof.
  intros Hp Hq.
  pose proof (purchase_product_short w pid p quantity Hp Hq) as E.
  split; [exact E |]. rewrite E. exact Hp.
Qed.

Lemma purchase_product_insufficient_witness :
  purchase_product "w1" 6 (store_of widget) =
    (Err (InsufficientStock 5 6), store_of widget) /\
  disk (purchase_product "w1" 6 (store_of widget)).2 !! "w1" = Some widget.
Proof.
  apply (purchase_product_insufficient (store_of widget) "w1" widget 6);
    [reflexivity | cbn; lia].
Defined.

Lemma purchase_product_not_found (w : World) (pid : string) (quantity : Z) :
  disk w !! pid = None -> purchase_product pid quantity w = (Err NotFound, w).
Proof.
  intros Hp. unfold purchase_product, bind, load_data. rewrite Hp.
  reflexivity.
Qed.

(** The amount [manual_restock] computes in line is the one of
    [restock_if_needed]. *)
Lemma manual_restock_found (w : World) (pid : string) (p : Product) :
  disk w !! pid = Some p ->
  manual_restock pid w =
    match compute_restock_amount (restock_quantity p) (priority p)
                                 (category p) with
    | Ok a =>
        (Ok (mkRestockResponse pid (stock_quantity p)
                               (stock_quantity p + a) a),
         mkWorld (<[pid := set_stock_quantity (stock_quantity p + a) p]>
                    (disk w)) (S (saves w)))
    | Err e => (Err e, w)
    end.
Proof.
  intros Hp. unfold manual_restock, bind, load_data, lift. rewrite Hp.
  unfold compute_restock_amount.
  destruct (decide (priority p = high));
    [| destruct (decide (category p = Some high_volume))];
    try reflexivity;
    destruct (result_bind _ _); reflexivity.
Qed.

(** C6, as the code has it. [manual_restock] fails with NotFound iff
    the id is absent.  For a stored product, whatever its stock,
    priority and [should_restock]: when the restock amount is computed,
    it is added to the stock, the product is saved and the answer
    carries the stock before, the stock after and the amount; when its
    computation raises, [manual_restock] fails with the same exception
    and nothing is saved. *)
Theorem manual_restock_spec (w : World) (pid : string) :
  (disk w !! pid = None <-> (manual_restock pid w).1 = Err NotFound) /\
  (forall p a,
     disk w !! pid = Some p ->
     compute_restock_amount (restock_quantity p) (priority p) (category p)
     = Ok a ->
     manual_restock pid w =
       (Ok (mkRestockResponse pid (stock_quantity p)
                              (stock_quantity p + a) a),
        mkWorld (<[pid := set_stock_quantity (stock_quantity p + a) p]>
                   (disk w)) (S (saves w)))) /\
  (forall p e,
     disk w !! pid = Some p ->
     compute_restock_amount (restock_quantity p) (priority p) (category p)
     = Err e ->
     manual_restock pid w = (Err e, w) /\ e = OverflowError).
Proof.
  assert (Hfound : forall p, disk w !! pid = Some p ->
            (manual_restock pid w).1 <> Err NotFound).
  { intros p Hp. rewrite (manual_restock_found w pid p Hp).
    destruct (compute_restock_amount _ _ _) as [a | e] eqn:Ha; cbn;
      [discriminate |].
    apply compute_restock_amount_error in Ha. subst e. discriminate. }
  split; [split |].
  - intros Hp. unfold manual_restock, bind, load_data. rewrite Hp.
    reflexivity.
  - destruct (disk w !! pid) as [p |] eqn:Hp; [| reflexivity].
    intros H. exfalso. exact (Hfound p eq_refl H).
  - split; intros p x Hp Ha; rewrite (manual_restock_found w pid p Hp), Ha;
      [reflexivity | split; [reflexivity |]].
    exact (compute_restock_amount_error _ _ _ _ Ha).
Qed.

Lemma manual_restock_spec_witness :
  manual_restock "w1" (store_of widget) =
    (Ok (mkRestockResponse "w1" 5 (5 + 20) 20),
     mkWorld (<[ "w1" := set_stock_quantity (5 + 20) widget ]>
                (disk (store_of widget))) 1).
Proof.
  apply (proj1 (proj2 (manual_restock_spec (store_of widget) "w1"))
           widget 20); reflexivity.
Defined.

(** C6, as the specification has it, fails: a stored high-priority
    product whose restock quantity is [2^1024] is not restocked. *)
Lemma manual_restock_overflow :
  disk (store_of gadget) !! "g1" = Some gadget /\
  manual_restock "g1" (store_of gadget)
  = (Err OverflowError, store_of gadget).
Proof.
  split; [reflexivity |].
  rewrite (manual_restock_found _ _ gadget) by reflexivity.
  vm_compute. reflexivity.
Qed.

Lemma add_product_exists (w : World) (product : Product) :
  is_Some (disk w !! product_id product) ->
  add_product product w = (Err AlreadyExists, w).
Proof.
  intros H. unfold add_product, bind, load_data.
  rewrite decide_True by exact H. reflexivity.
Qed.

(** The record [add_product] stores for a new identifier. *)
Lemma add_product_fresh (w : World) (product : Product) :
  disk w !! product_id product = None ->
  let stored :=
    mkProduct (product_id product) (name product) (stock_quantity product)
      (if bool_decide (priority product = high) &&
          (min_threshold product <? 10)
       then 10 else min_threshold product)
      (restock_quantity product) (priority product)
      (Some (if restock_quantity product >? 50 then high_volume
             else low_volume)) in
  add_product product w =
    (Ok stored,
     mkWorld (<[product_id product := stored]> (disk w)) (S (saves w))).
Proof.
  intros H. unfold add_product, bind, load_data.
  rewrite decide_False by (rewrite H; apply is_Some_None).
  destruct (bool_decide (priority product = high) &&
            (min_threshold product <? 10)); reflexivity.
Qed.

(** C7. A new candidate with priority high and min_threshold < 10 is
    stored, not rejected, with min_threshold 10; every other new
    candidate is stored with the min_threshold it came with.  (A
    candidate whose identifier is taken is rejected with AlreadyExists.) *)
Theorem add_product_min_threshold (w : World) (product : Product) :
  disk w !! product_id product = None ->
  exists stored,
    add_product product w =
      (Ok stored,
       mkWorld (<[product_id product := stored]> (disk w)) (S (saves w))) /\
    (priority product = high -> min_threshold product < 10 ->
     min_threshold stored = 10) /\
    (priority product <> high \/ 10 <= min_threshold product ->
     min_threshold stored = min_threshold product).
Proof.
  intros H. eexists. split; [apply add_product_fresh, H |].
  cbn [min_threshold]. split.
  - intros Hp Hlt. rewrite bool_decide_eq_true_2 by exact Hp.
    destruct (Z.ltb_spec (min_threshold product) 10); [reflexivity | lia].
  - intros [Hp | Hge].
    + rewrite bool_decide_eq_false_2 by exact Hp. reflexivity.
    + destruct (Z.ltb_spec (min_threshold product) 10); [lia |].
      rewrite andb_false_r. reflexivity.
Qed.

Lemma add_product_min_threshold_witness :
  exists stored,
    add_product (mkProduct "h1" "hammer" 3 5 60 high None) empty_World =
      (Ok stored, mkWorld (<["h1" := stored]> ∅) 1) /\
    min_threshold stored = 10.
Proof.
  destruct (add_product_min_threshold empty_World
              (mkProduct "h1" "hammer" 3 5 60 high None) eq_refl)
    as (stored & Hadd & Hhigh & _).
  exists stored. split; [exact Hadd |].
  apply Hhigh; [reflexivity | cbn; lia].
Defined.

(** C8. A new candidate is stored with category high_volume iff its
    restock_quantity is above 50, and low_volume otherwise, whatever
    category it came with; 60 gives high_volume and 40 low_volume. *)
Theorem add_product_category (w : World) (product : Product) :
  disk w !! product_id product = None ->
  exists stored,
    add_product product w =
      (Ok stored,
       mkWorld (<[product_id product := stored]> (disk w)) (S (saves w))) /\
    (category stored = Some high_volume <-> 50 < restock_quantity product) /\
    (category stored = Some low_volume <-> restock_quantity product <= 50) /\
    (restock_quantity product = 60 -> category stored = Some high_volume) /\
    (restock_quantity product = 40 -> category stored = Some low_volume).
Proof.
  intros H. eexists. split; [apply add_product_fresh, H |].
  cbn [category].
  destruct (Z.gtb_spec (restock_quantity product) 50) as [Hgt | Hle];
    repeat split; intros; try reflexivity; try discriminate; try lia.
Qed.

Lemma add_product_category_witness :
  exists stored,
    add_product (mkProduct "h1" "hammer" 3 5 60 high (Some low_volume))
                empty_World =
      (Ok stored, mkWorld (<["h1" := stored]> ∅) 1) /\
    category stored = Some high_volume.
Proof.
  destruct (add_product_category empty_World
              (mkProduct "h1" "hammer" 3 5 60 high (Some low_volume)) eq_refl)
    as (stored & Hadd & _ & _ & H60 & _).
  exists stored. split; [exact Hadd |]. apply H60. reflexivity.
Defined.

Lemma store_ok_insert (w : World) (pid : string) (p : Product) (n : nat) :
  store_ok w -> nonneg_Product p ->
  store_ok (mkWorld (<[pid := p]> (disk w)) n).
Proof.
  intros Hw Hp pid' p'. cbn [disk].
  destruct (decide (pid = pid')) as [<- | Hne].
  - rewrite lookup_insert_eq. intros [= <-]. exact Hp.
  - rewrite lookup_insert_ne by exact Hne. apply Hw.
Qed.

Lemma add_product_store_ok (w : World) (product : Product) :
  store_ok w -> valid_Product product -> store_ok (add_product product w).2.
Proof.
  intros Hw (Hs & Ht & Hq).
  unfold validate_positive_numbers in Hs, Ht, Hq.
  apply negb_true_iff, Z.ltb_ge in Hs, Ht, Hq.
  destruct (disk w !! product_id product) as [p0 |] eqn:Hp.
  - rewrite add_product_exists by (rewrite Hp; eauto). exact Hw.
  - rewrite (add_product_fresh w product Hp). cbn [snd].
    apply store_ok_insert; [exact Hw |].
    unfold nonneg_Product. cbn.
    destruct (bool_decide (priority product = high) &&
              (min_threshold product <? 10)); lia.
Qed.

Lemma purchase_product_store_ok (w : World) (pid : string) (quantity : Z) :
  store_ok w -> store_ok (purchase_product pid quantity w).2.
Proof.
  intros Hw. destruct (disk w !! pid) as [p |] eqn:Hp.
  - destruct (Z_lt_ge_dec (stock_quantity p) quantity) as [Hlt | Hge].
    + rewrite (purchase_product_short w pid p quantity Hp Hlt). exact Hw.
    + rewrite (purchase_product_found w pid p quantity Hp) by lia.
      destruct (restock_if_needed _) as [[p' triggered] | e] eqn:Hr;
        [| exact Hw].
      cbn [snd]. apply store_ok_insert; [exact Hw |].
      apply (restock_if_needed_nonneg _ _ _) in Hr; [exact Hr |].
      destruct (Hw pid p Hp) as (Hs & Ht & Hq).
      unfold nonneg_Product. cbn. lia.
  - rewrite (purchase_product_not_found w pid quantity Hp). exact Hw.
Qed.

Lemma manual_restock_store_ok (w : World) (pid : string) :
  store_ok w -> store_ok (manual_restock pid w).2.
Proof.
  intros Hw. destruct (disk w !! pid) as [p |] eqn:Hp.
  - rewrite (manual_restock_found w pid p Hp).
    destruct (Hw pid p Hp) as (Hs & Ht & Hq).
    destruct (compute_restock_amount _ _ _) as [a | e] eqn:Ha; [| exact Hw].
    cbn [snd]. apply store_ok_insert; [exact Hw |].
    apply compute_restock_amount_nonneg in Ha; [| exact Hq].
    unfold nonneg_Product. cbn. lia.
  - unfold manual_restock, bind, load_data. rewrite Hp. exact Hw.
Qed.

(** C9. In every store reached from the empty one by [add_product],
    [purchase_product] and [manual_restock] on validated requests, no
    stored product has a negative stock_quantity, min_threshold or
    restock_quantity; each of the three handlers keeps it so. *)
Theorem reachable_store_ok :
  (forall w, reachable w -> store_ok w) /\
  (forall w product,
     store_ok w -> valid_Product product ->
     store_ok (add_product product w).2) /\
  (forall w pid quantity,
     store_ok w -> validate_quantity quantity = true ->
     store_ok (purchase_product pid quantity w).2) /\
  (forall w pid, store_ok w -> store_ok (manual_restock pid w).2).
Proof.
  split; [| split; [| split]].
  - induction 1 as [| w product _ IH Hv | w pid quantity _ IH _ | w pid _ IH].
    + intros pid p. cbn. rewrite lookup_empty. discriminate.
    + apply add_product_store_ok; assumption.
    + apply purchase_product_store_ok; assumption.
    + apply manual_restock_store_ok; assumption.
  - apply add_product_store_ok.
  - intros w pid quantity Hw _. apply purchase_product_store_ok, Hw.
  - apply manual_restock_store_ok.
Qed.

Lemma reachable_store_ok_witness :
  store_ok (purchase_product "w1" 5 (add_product widget empty_World).2).2.
Proof.
  apply (proj1 reachable_store_ok).
  apply reach_purchase_product; [| reflexivity].
  apply reach_add_product; [apply reach_empty |].
  repeat split.
Defined.

(** C10. [inventory_status] and [get_all_inventory] leave the store as
    it was, whether they answer or fail: no product changes and nothing
    is saved. *)
Theorem reads_leave_store (w : World) (pid : string) :
  (inventory_status pid w).2 = w /\ (get_all_inventory w).2 = w.
Proof.
  split.
  - unfold inventory_status, bind, load_data.
    destruct (disk w !! pid); reflexivity.
  - unfold get_all_inventory, bind, load_data.
    destruct (decide (disk w = ∅)); reflexivity.
Qed.

(** What the two readers answer. *)
Lemma inventory_status_answer (w : World) (pid : string) :
  (inventory_status pid w).1 =
    match disk w !! pid with
    | Some p => Ok (inventory_response p)
    | None => Err NotFound
    end.
Proof.
  unfold inventory_status, bind, load_data.
  destruct (disk w !! pid); reflexivity.
Qed.

Lemma get_all_inventory_answer (w : World) :
  (get_all_inventory w).1 =
    Ok ((fun kv => inventory_response kv.2) <$> map_to_list (disk w)).
Proof.
  unfold get_all_inventory, bind, load_data.
  destruct (decide (disk w = ∅)) as [E | E]; [| reflexivity].
  cbn. rewrite E, map_to_list_empty. reflexivity.
Qed.


(** ** More on the restock rules *)

(** Every positive integer that converts gives a normal double. *)
Lemma of_int_normal (t : Z) (f : spec_float) :
  0 < t -> PyFloat.of_int t = Ok f ->
  exists (m : positive) (e : Z),
    f = S754_finite false m e /\
    2 ^ 52 <= Z.pos m < 2 ^ 53 /\ -52 <= e <= 971.
Proof.
  intros Ht Hf.
  destruct (Z_lt_ge_dec t (2 ^ 53)) as [Hlt | Hge].
  - destruct (Rounding.of_int_exact t ltac:(lia))
      as (m & e & Hof & Hm & He & _).
    rewrite Hof in Hf. injection Hf as <-.
    exists m, e. repeat split; lia.
  - destruct t as [| p |]; try lia.
    pose proof (Rounding.digits2_pos_bounds p) as Hp.
    set (d := Z.pos (digits2_pos p)) in *.
    assert (Hd : 54 <= d).
    { destruct (Z_le_gt_dec 54 d) as [H | H]; [exact H |].
      assert (2 ^ d <= 2 ^ 53) by (apply Z.pow_le_mono_r; lia). lia. }
    destruct (Rounding.binary_round_aux_normal false p 0)
      as (m' & e' & Hres & Hm' & He' & _); fold d; try lia.
    fold d in He'.
    revert Hf. unfold PyFloat.of_int, binary_normalize, binary_round.
    change PyFloat.prec with 53. change PyFloat.emax with 1024. fold d.
    replace (fexp 53 1024 (d + 0)) with (d - 53)
      by (unfold fexp, emin; lia).
    unfold shl_align.
    destruct (d - 53 - 0) as [| c | c] eqn:Ec; try lia.
    rewrite Hres.
    destruct (Z.leb_spec e' 971) as [Hle | Hgt]; [| discriminate].
    intros [= <-]. exists m', e'. repeat split; lia.
Qed.

(** Multiplying a normal double by [0.5] or [0.25] lowers its exponent
    and keeps its mantissa. *)
Lemma mul_pow2_exact (m : positive) (e c : Z) :
  2 ^ 52 <= Z.pos m < 2 ^ 53 -> -52 <= e <= 971 -> 53 <= c <= 54 ->
  PyFloat.mul (S754_finite false m e)
              (S754_finite false 4503599627370496 (- c))
  = S754_finite false m (e - (c - 52)).
Proof.
  intros Hm He Hc.
  destruct (Rounding.mul_normal m 4503599627370496 e (- c) Hm)
    as (m' & e' & k & v & Hk & Hmul & Hm' & He' & Hv & Hnear);
    [change (Z.pos 4503599627370496) with (2 ^ 52); lia | lia |].
  change (Z.pos 4503599627370496) with (2 ^ 52) in *.
  assert (Hk52 : k = 52) by (destruct Hk as [[-> _] | [_ Hbig]]; lia).
  subst k. assert (Hvm : v = Z.pos m) by lia. subst v.
  assert (He'' : e' = e + - c + 52).
  { destruct (Z.eq_dec e' (e + - c + 52)) as [E | E]; [exact E |].
    assert (E' : e' - (e + - c) = 53) by lia. rewrite E' in Hv. lia. }
  subst e'. replace (e + - c + 52 - (e + - c)) with 52 in Hv by lia.
  assert (m' = m) by lia. subst m'.
  rewrite Hmul.
  replace (e + - c + 52 <=? 971) with true
    by (symmetry; apply Z.leb_le; lia).
  f_equal. lia.
Qed.

(** Doubling a positive double keeps every integer below it below. *)
Lemma int_le_double (n : Z) (m : positive) (e : Z) :
  PyFloat.int_le n (S754_finite false m e) = true ->
  PyFloat.int_le n (S754_finite false m (e + 1)) = true.
Proof.
  unfold PyFloat.int_le, PyFloat.mant. cbn [cond_Zopp].
  destruct (Z.leb_spec 0 e) as [H0 | H0].
  - replace (0 <=? e + 1) with true by (symmetry; apply Z.leb_le; lia).
    rewrite !Z.leb_le, Z.pow_add_r by lia.
    assert (0 < 2 ^ e) by (apply Z.pow_pos_nonneg; lia).
    change (2 ^ 1) with 2. nia.
  - destruct (Z.leb_spec 0 (e + 1)) as [H1 | H1].
    + assert (e = -1) by lia. subst e. cbn. rewrite !Z.leb_le. lia.
    + rewrite !Z.leb_le.
      replace (- e) with (- (e + 1) + 1) by lia.
      rewrite Z.pow_add_r by lia.
      assert (0 < 2 ^ (- (e + 1))) by (apply Z.pow_pos_nonneg; lia).
      change (2 ^ 1) with 2. nia.
Qed.

(** With a threshold from 0 up to [2^53] the decision is the integer
    rule. *)
Lemma should_restock_small (p : Product) :
  0 <= min_threshold p < 2 ^ 53 -> should_restock p = Ok (restock_rule p).
Proof.
  intros Ht. unfold should_restock, restock_rule.
  destruct (stock_quantity p =? 0); [reflexivity |].
  destruct (Z.geb_spec (stock_quantity p) (min_threshold p)) as [_ | Hlt];
    [reflexivity |].
  destruct (Z.eq_dec (min_threshold p) 0) as [E | E].
  - rewrite E. destruct (priority p).
    + f_equal. apply Z.ltb_lt. lia.
    + change (PyFloat.int_mul 0 PyFloat.lit_0_5) with
        (Ok (A:=spec_float) (S754_zero false)).
      cbn. f_equal. apply eq_true_iff_eq. rewrite !Z.leb_le. lia.
    + change (PyFloat.int_mul 0 PyFloat.lit_0_25) with
        (Ok (A:=spec_float) (S754_zero false)).
      cbn. f_equal. apply eq_true_iff_eq. rewrite !Z.leb_le. lia.
  - destruct (Rounding.int_le_int_mul_pow2 (stock_quantity p)
                (min_threshold p) 53 ltac:(lia) ltac:(lia))
      as (l1 & Hm1 & Hl1).
    destruct (Rounding.int_le_int_mul_pow2 (stock_quantity p)
                (min_threshold p) 54 ltac:(lia) ltac:(lia))
      as (l2 & Hm2 & Hl2).
    change (- (53)) with (-53) in Hm1. change (- (54)) with (-54) in Hm2.
    fold PyFloat.lit_0_5 in Hm1. fold PyFloat.lit_0_25 in Hm2.
    destruct (priority p).
    + f_equal. apply Z.ltb_lt. exact Hlt.
    + rewrite Hm1. cbn [result_bind]. rewrite Hl1. reflexivity.
    + rewrite Hm2. cbn [result_bind]. rewrite Hl2. reflexivity.
Qed.

(** X1. With a threshold from 0 up to [2^53], [should_restock]
    returns, and what it returns is the rule in integers: true at stock
    0, false at or above the threshold, and below it true for high, for
    medium when twice the stock is at most the threshold, for low when
    four times the stock is. *)
Theorem should_restock_exact (p : Product) :
  0 <= min_threshold p < 2 ^ 53 ->
  should_restock p =
    Ok (if stock_quantity p =? 0 then true
        else if stock_quantity p >=? min_threshold p then false
        else match priority p with
             | high => true
             | medium => stock_quantity p * 2 <=? min_threshold p
             | low => stock_quantity p * 4 <=? min_threshold p
             end).
Proof.
  intros Ht. rewrite (should_restock_small p Ht).
  unfold restock_rule. reflexivity.
Qed.

Lemma should_restock_exact_witness :
  should_restock (mkProduct "w1" "widget" 3 10 20 low None) = Ok false.
Proof.
  apply (should_restock_exact (mkProduct "w1" "widget" 3 10 20 low None)).
  cbn. lia.
Defined.

(** X2. The priorities are nested, whatever the size of the threshold:
    on the same non-negative stock and threshold, a product that
    restocks at low priority restocks at medium, and one that restocks at
    medium restocks at high. *)
Theorem should_restock_tiers
    (pid nm : string) (stock threshold qty : Z) (cat : option CategoryEnum) :
  0 <= stock ->
  let p prio := mkProduct pid nm stock threshold qty prio cat in
  (should_restock (p low) = Ok true -> should_restock (p medium) = Ok true) /\
  (should_restock (p medium) = Ok true -> should_restock (p high) = Ok true).
Proof.
  intros Hs p. unfold should_restock, p.
  cbn [stock_quantity min_threshold priority].
  destruct (Z.eqb_spec stock 0) as [_ | H0]; [split; reflexivity |].
  destruct (Z.geb_spec stock threshold) as [_ | Hlt];
    [split; discriminate |].
  split.
  - unfold PyFloat.int_mul.
    destruct (PyFloat.of_int threshold) as [f | e] eqn:Hf;
      cbn [result_bind]; [| discriminate].
    destruct (of_int_normal threshold f ltac:(lia) Hf)
      as (m & e & -> & Hm & He).
    unfold PyFloat.lit_0_5, PyFloat.lit_0_25.
    pose proof (mul_pow2_exact m e 54 Hm He ltac:(lia)) as H54.
    pose proof (mul_pow2_exact m e 53 Hm He ltac:(lia)) as H53.
    change (- (54)) with (-54) in H54. change (- (53)) with (-53) in H53.
    rewrite H54, H53.
    intros [= H]. f_equal.
    replace (e - (53 - 52)) with (e - (54 - 52) + 1) by lia.
    apply int_le_double, H.
  - intros _. f_equal. apply Z.ltb_lt. exact Hlt.
Qed.

Lemma should_restock_tiers_witness :
  should_restock (mkProduct "w1" "widget" 2 10 20 medium None) = Ok true.
Proof.
  apply (proj1 (should_restock_tiers "w1" "widget" 2 10 20 None
                  ltac:(lia))).
  vm_compute. reflexivity.
Defined.

(** X3. The decision agrees with the status: an out_of_stock product
    is always restocked, a product whose status is ok never is, and in
    neither case can [should_restock] raise. *)
Theorem should_restock_status (p : Product) :
  (get_inventory_status p = out_of_stock -> should_restock p = Ok true) /\
  (get_inventory_status p = ok -> should_restock p = Ok false) /\
  (should_restock p = Ok true -> get_inventory_status p <> ok).
Proof.
  unfold get_inventory_status, should_restock.
  destruct (stock_quantity p =? 0).
  - repeat split; try discriminate.
  - destruct (Z.ltb_spec (stock_quantity p) (min_threshold p)) as [L | L];
      destruct (Z.geb_spec (stock_quantity p) (min_threshold p)) as [G | G];
      try lia; repeat split; try discriminate.
Qed.

Lemma compute_restock_amount_small (p : Product) :
  0 <= restock_quantity p < 2 ^ 48 ->
  compute_restock_amount (restock_quantity p) (priority p) (category p)
  = Ok (restock_amount p).
Proof.
  intros Hq. unfold compute_restock_amount, restock_amount.
  destruct (decide (priority p = high)) as [_ | _];
    [apply Rounding.int_mul_1_2_trunc; lia |].
  destruct (decide (category p = Some high_volume)) as [_ | _];
    [apply Rounding.int_mul_1_1_trunc; lia | reflexivity].
Qed.

Lemma restock_amount_range (p : Product) :
  0 <= restock_quantity p ->
  restock_quantity p <= restock_amount p /\
  5 * restock_amount p <= 6 * restock_quantity p.
Proof.
  intros Hq. unfold restock_amount.
  pose proof (Z.div_mod (restock_quantity p * 6) 5 ltac:(lia)).
  pose proof (Z.mod_pos_bound (restock_quantity p * 6) 5 ltac:(lia)).
  pose proof (Z.div_mod (restock_quantity p * 11) 10 ltac:(lia)).
  pose proof (Z.mod_pos_bound (restock_quantity p * 11) 10 ltac:(lia)).
  repeat case_decide; lia.
Qed.

(** X4. For a restock quantity from 0 up to [2^48] the amount is
    computed, is at least the restock quantity and at most six fifths of
    it, whatever the priority and the category. *)
Theorem compute_restock_amount_bounds
    (q : Z) (prio : PriorityEnum) (cat : option CategoryEnum) :
  0 <= q < 2 ^ 48 ->
  exists a, compute_restock_amount q prio cat = Ok a /\
            q <= a /\ 5 * a <= 6 * q.
Proof.
  intros Hq.
  pose (p := mkProduct "" "" 0 0 q prio cat).
  exists (restock_amount p). split.
  - apply (compute_restock_amount_small p). exact Hq.
  - apply (restock_amount_range p). cbn. lia.
Qed.

Lemma compute_restock_amount_bounds_witness :
  exists a, compute_restock_amount 40 medium (Some low_volume) = Ok a /\
            40 <= a /\ 5 * a <= 6 * 40.
Proof.
  apply (compute_restock_amount_bounds 40 medium (Some low_volume)). lia.
Defined.

(** ** More on the handlers *)

Lemma manual_restock_not_found (w : World) (pid : string) :
  disk w !! pid = None -> manual_restock pid w = (Err NotFound, w).
Proof.
  intros Hp. unfold manual_restock, bind, load_data. rewrite Hp.
  reflexivity.
Qed.

Lemma set_stock_quantity_same (p : Product) :
  set_stock_quantity (stock_quantity p) p = p.
Proof. destruct p. reflexivity. Qed.

Lemma set_stock_quantity_twice (a b : Z) (p : Product) :
  set_stock_quantity a (set_stock_quantity b p) = set_stock_quantity a p.
Proof. reflexivity. Qed.

(** The product [restock_if_needed] hands back differs from the one it
    was given in its stock only, which does not go down when the restock
    quantity is not negative. *)
Lemma restock_if_needed_shape (p p' : Product) (b : bool) :
  restock_if_needed p = Ok (p', b) ->
  p' = set_stock_quantity (stock_quantity p') p /\
  (b = false -> p' = p) /\
  (b = true ->
   exists a,
     compute_restock_amount (restock_quantity p) (priority p) (category p)
     = Ok a /\ stock_quantity p' = stock_quantity p + a).
Proof.
  unfold restock_if_needed.
  destruct (should_restock p) as [[|] | e]; cbn; try discriminate.
  - destruct (compute_restock_amount _ _ _) as [a | e] eqn:Ha; cbn;
      try discriminate.
    intros [= <- <-]. repeat split; try discriminate.
    intros _. exists a. split; reflexivity.
  - intros [= <- <-]. split; [symmetry; apply set_stock_quantity_same |].
    split; [reflexivity | discriminate].
Qed.

(** What each mutating handler does to the store, case by case. *)
Lemma purchase_product_cases (w : World) (pid : string) (quantity : Z) :
  (purchase_product pid quantity w).2 = w /\
  (exists e, (purchase_product pid quantity w).1 = Err e) \/
  exists p p' r,
    disk w !! pid = Some p /\ quantity <= stock_quantity p /\
    restock_if_needed (set_stock_quantity (stock_quantity p - quantity) p)
    = Ok (p', restock_triggered r) /\
    remaining_stock r = stock_quantity p' /\
    purchase_product pid quantity w =
      (Ok r, mkWorld (<[pid := p']> (disk w)) (S (saves w))).
Proof.
  destruct (disk w !! pid) as [p |] eqn:Hp.
  - destruct (Z_lt_ge_dec (stock_quantity p) quantity) as [Hlt | Hge].
    + left. rewrite (purchase_product_short w pid p quantity Hp Hlt).
      split; [reflexivity | eauto].
    + rewrite (purchase_product_found w pid p quantity Hp) by lia.
      destruct (restock_if_needed _) as [[p' triggered] | e] eqn:Hr.
      * right. exists p, p', (mkPurchaseResponse (stock_quantity p') triggered).
        repeat split; try reflexivity; try lia. exact Hr.
      * left. split; [reflexivity | eauto].
  - left. rewrite (purchase_product_not_found w pid quantity Hp).
    split; [reflexivity | eauto].
Qed.

Lemma manual_restock_cases (w : World) (pid : string) :
  (manual_restock pid w).2 = w /\
  (exists e, (manual_restock pid w).1 = Err e) \/
  exists p a,
    disk w !! pid = Some p /\
    compute_restock_amount (restock_quantity p) (priority p) (category p)
    = Ok a /\
    manual_restock pid w =
      (Ok (mkRestockResponse pid (stock_quantity p) (stock_quantity p + a) a),
       mkWorld (<[pid := set_stock_quantity (stock_quantity p + a) p]>
                  (disk w)) (S (saves w))).
Proof.
  destruct (disk w !! pid) as [p |] eqn:Hp.
  - rewrite (manual_restock_found w pid p Hp).
    destruct (compute_restock_amount _ _ _) as [a | e] eqn:Ha.
    + right. exists p, a. repeat split; assumption.
    + left. split; [reflexivity | eauto].
  - left. rewrite (manual_restock_not_found w pid Hp).
    split; [reflexivity | eauto].
Qed.

Lemma add_product_cases (w : World) (product : Product) :
  is_Some (disk w !! product_id product) /\
  add_product product w = (Err AlreadyExists, w) \/
  exists stored,
    disk w !! product_id product = None /\
    product_id stored = product_id product /\
    add_product product w =
      (Ok stored,
       mkWorld (<[product_id product := stored]> (disk w)) (S (saves w))).
Proof.
  destruct (disk w !! product_id product) as [p0 |] eqn:Hp.
  - left. split; [eauto |]. apply add_product_exists. rewrite Hp. eauto.
  - right. eexists. split; [reflexivity |].
    split; [| apply (add_product_fresh w product Hp)]. reflexivity.
Qed.

(** X8. A handler touches the product it is called on and no other:
    every other identifier reads the same before and after. *)
Theorem mutators_frame (w : World) (other : string) :
  (forall product,
     product_id product <> other ->
     disk (add_product product w).2 !! other = disk w !! other) /\
  (forall pid quantity,
     pid <> other ->
     disk (purchase_product pid quantity w).2 !! other = disk w !! other) /\
  (forall pid,
     pid <> other ->
     disk (manual_restock pid w).2 !! other = disk w !! other).
Proof.
  split; [| split].
  - intros product Hne.
    destruct (add_product_cases w product) as [[_ ->] | (s & _ & _ & ->)];
      [reflexivity |].
    cbn. apply lookup_insert_ne, Hne.
  - intros pid quantity Hne.
    destruct (purchase_product_cases w pid quantity)
      as [[-> _] | (p & p' & r & _ & _ & _ & _ & ->)]; [reflexivity |].
    cbn. apply lookup_insert_ne, Hne.
  - intros pid Hne.
    destruct (manual_restock_cases w pid)
      as [[-> _] | (p & a & _ & _ & ->)]; [reflexivity |].
    cbn. apply lookup_insert_ne, Hne.
Qed.

Lemma mutators_frame_witness :
  disk (purchase_product "w1" 5 (store_of widget)).2 !! "g1"
  = disk (store_of widget) !! "g1".
Proof.
  apply (proj1 (proj2 (mutators_frame (store_of widget) "g1"))).
  discriminate.
Defined.

(** X9. [purchase_product] and [manual_restock] change nothing of a
    stored product but its stock: identifier, name, threshold, restock
    quantity, priority and category stay as they were. *)
Theorem mutators_only_stock (w : World) (pid : string) (p : Product) :
  disk w !! pid = Some p ->
  (forall quantity,
     exists p',
       disk (purchase_product pid quantity w).2 !! pid = Some p' /\
       p' = set_stock_quantity (stock_quantity p') p) /\
  (exists p',
     disk (manual_restock pid w).2 !! pid = Some p' /\
     p' = set_stock_quantity (stock_quantity p') p).
Proof.
  intros Hp. split.
  - intros quantity.
    destruct (purchase_product_cases w pid quantity)
      as [[-> _] | (p0 & p' & r & Hp0 & _ & Hr & _ & ->)].
    + exists p. split; [exact Hp |]. symmetry. apply set_stock_quantity_same.
    + assert (p0 = p) by congruence. subst p0.
      exists p'. cbn. rewrite lookup_insert_eq. split; [reflexivity |].
      apply restock_if_needed_shape in Hr. destruct Hr as [Hr _].
      rewrite Hr at 1. apply set_stock_quantity_twice.
  - destruct (manual_restock_cases w pid)
      as [[-> _] | (p0 & a & Hp0 & _ & ->)].
    + exists p. split; [exact Hp |]. symmetry. apply set_stock_quantity_same.
    + assert (p0 = p) by congruence. subst p0.
      eexists. cbn. rewrite lookup_insert_eq. split; reflexivity.
Qed.

Lemma mutators_only_stock_witness :
  exists p',
    disk (manual_restock "w1" (store_of widget)).2 !! "w1" = Some p' /\
    p' = set_stock_quantity (stock_quantity p') widget.
Proof.
  apply (mutators_only_stock (store_of widget) "w1" widget). reflexivity.
Defined.

(** X10. No handler removes a product: [purchase_product] and
    [manual_restock] keep the set of identifiers, and [add_product] adds
    the candidate's identifier when it answers. *)
Theorem handlers_keep_ids (w : World) :
  (forall pid quantity,
     dom (disk (purchase_product pid quantity w).2) = dom (disk w)) /\
  (forall pid, dom (disk (manual_restock pid w).2) = dom (disk w)) /\
  (forall product,
     dom (disk (add_product product w).2) =
       match (add_product product w).1 with
       | Ok _ => {[ product_id product ]} ∪ dom (disk w)
       | Err _ => dom (disk w)
       end).
Proof.
  assert (Hin : forall (pid : string) (p p' : Product) (m : gmap string Product),
             m !! pid = Some p -> dom (<[pid := p']> m) = dom m).
  { intros pid p p' m Hm. rewrite dom_insert_L.
    apply subseteq_union_1_L, singleton_subseteq_l, elem_of_dom. eauto. }
  split; [| split].
  - intros pid quantity.
    destruct (purchase_product_cases w pid quantity)
      as [[-> _] | (p & p' & r & Hp & _ & _ & _ & ->)]; [reflexivity |].
    cbn. apply (Hin pid p), Hp.
  - intros pid.
    destruct (manual_restock_cases w pid)
      as [[-> _] | (p & a & Hp & _ & ->)]; [reflexivity |].
    cbn. apply (Hin pid p), Hp.
  - intros product.
    destruct (add_product_cases w product) as [[_ ->] | (s & _ & _ & ->)];
      [reflexivity |].
    cbn. apply dom_insert_L.
Qed.

Lemma wf_Product_set_stock (pid : string) (p : Product) (v : Z) :
  wf_Product pid p -> wf_Product pid (set_stock_quantity v p).
Proof. intros H. exact H. Qed.

Lemma store_wf_insert (w : World) (pid : string) (p : Product) (n : nat) :
  store_wf w -> wf_Product pid p ->
  store_wf (mkWorld (<[pid := p]> (disk w)) n).
Proof.
  intros Hw Hp pid' p'. cbn [disk].
  destruct (decide (pid = pid')) as [<- | Hne].
  - rewrite lookup_insert_eq. intros [= <-]. exact Hp.
  - rewrite lookup_insert_ne by exact Hne. apply Hw.
Qed.

Lemma reachable_store_wf (w : World) : reachable w -> store_wf w.
Proof.
  induction 1 as [| w product _ IH _ | w pid quantity _ IH _ | w pid _ IH].
  - intros pid p. cbn. rewrite lookup_empty. discriminate.
  - destruct (disk w !! product_id product) as [p0 |] eqn:Hp.
    + rewrite add_product_exists by (rewrite Hp; eauto). exact IH.
    + rewrite (add_product_fresh w product Hp). cbn [snd].
      apply store_wf_insert; [exact IH |].
      split; [reflexivity |]. split; [reflexivity |].
      cbn [priority min_threshold]. intros Hh.
      rewrite bool_decide_eq_true_2 by exact Hh.
      destruct (Z.ltb_spec (min_threshold product) 10); cbn; lia.
  - destruct (purchase_product_cases w pid quantity)
      as [[-> _] | (p & p' & r & Hp & _ & Hr & _ & ->)]; [exact IH |].
    cbn [snd]. apply store_wf_insert; [exact IH |].
    apply restock_if_needed_shape in Hr. destruct Hr as [-> _].
    apply wf_Product_set_stock, (IH pid p Hp).
  - destruct (manual_restock_cases w pid)
      as [[-> _] | (p & a & Hp & _ & ->)]; [exact IH |].
    cbn [snd]. apply store_wf_insert; [exact IH |].
    apply wf_Product_set_stock, (IH pid p Hp).
Qed.

(** X11. In every reachable store a product is filed under its own
    identifier, so [inventory_status] answers with the identifier it was
    asked for. *)
Theorem reachable_ids_agree (w : World) (pid : string) :
  reachable w ->
  (forall p, disk w !! pid = Some p -> product_id p = pid) /\
  (forall r, (inventory_status pid w).1 = Ok r -> ir_product_id r = pid).
Proof.
  intros Hw. pose proof (reachable_store_wf w Hw) as Hwf. split.
  - intros p Hp. exact (proj1 (Hwf pid p Hp)).
  - intros r. rewrite inventory_status_answer.
    destruct (disk w !! pid) as [p |] eqn:Hp; [| discriminate].
    intros [= <-]. exact (proj1 (Hwf pid p Hp)).
Qed.

Lemma reachable_ids_agree_witness :
  product_id (set_stock_quantity (5 + 20) widget) = "w1".
Proof.
  apply (proj1 (reachable_ids_agree
                  (manual_restock "w1" (add_product widget empty_World).2).2
                  "w1"
                  ltac:(apply reach_manual_restock, reach_add_product;
                        [apply reach_empty | repeat split]))).
  reflexivity.
Defined.

(** X12. The creation rules last: in every reachable store each
    product has the category its restock quantity gives (high_volume
    above 50, low_volume otherwise), and each high-priority product has
    a threshold of at least 10. *)
Theorem reachable_rules_hold (w : World) (pid : string) (p : Product) :
  reachable w -> disk w !! pid = Some p ->
  category p =
    Some (if restock_quantity p >? 50 then high_volume else low_volume) /\
  (priority p = high -> 10 <= min_threshold p).
Proof.
  intros Hw Hp. exact (proj2 (reachable_store_wf w Hw pid p Hp)).
Qed.

Lemma reachable_rules_hold_witness :
  10 <= min_threshold (mkProduct "h1" "hammer" 3 10 60 high (Some high_volume)).
Proof.
  apply (reachable_rules_hold
           (add_product (mkProduct "h1" "hammer" 3 5 60 high None)
                        empty_World).2 "h1"
           (mkProduct "h1" "hammer" 3 10 60 high (Some high_volume))).
  - apply reach_add_product; [apply reach_empty | repeat split].
  - reflexivity.
  - reflexivity.
Defined.

(** X13. [get_all_inventory] answers with one entry per stored
    product and nothing else: the entries are the answers
    [inventory_status] gives for the stored products, and there are as
    many as the store has products. *)
Theorem get_all_inventory_entries (w : World) :
  exists l,
    (get_all_inventory w).1 = Ok l /\
    length l = size (disk w) /\
    (forall r,
       r ∈ l <->
       exists pid p, disk w !! pid = Some p /\ r = inventory_response p).
Proof.
  eexists. split; [apply get_all_inventory_answer |]. split.
  - rewrite length_fmap. apply length_map_to_list.
  - intros r. rewrite list_elem_of_fmap. split.
    + intros ([pid p] & -> & Hin). apply elem_of_map_to_list in Hin.
      exists pid, p. split; [exact Hin | reflexivity].
    + intros (pid & p & Hp & ->). exists (pid, p).
      split; [reflexivity |]. apply elem_of_map_to_list. exact Hp.
Qed.

(** X14. After a new product is added, [inventory_status] on its
    identifier answers with its stock and priority as supplied and with
    the status taken against the stored threshold, which is 10 for a
    high-priority product supplied with less. *)
Theorem add_product_then_status (w : World) (product : Product) :
  disk w !! product_id product = None ->
  (inventory_status (product_id product) (add_product product w).2).1 =
    Ok (mkInventoryResponse
          (product_id product) (stock_quantity product)
          (get_inventory_status
             (set_min_threshold
                (if bool_decide (priority product = high) &&
                    (min_threshold product <? 10)
                 then 10 else min_threshold product) product))
          (priority product)).
Proof.
  intros Hp. rewrite (add_product_fresh w product Hp). cbn [snd].
  rewrite inventory_status_answer. cbn [disk].
  rewrite lookup_insert_eq. reflexivity.
Qed.

Lemma add_product_then_status_witness :
  (inventory_status "h1"
     (add_product (mkProduct "h1" "hammer" 7 5 60 high None)
                  empty_World).2).1 =
    Ok (mkInventoryResponse "h1" 7 below_threshold high).
Proof.
  apply (add_product_then_status empty_World
           (mkProduct "h1" "hammer" 7 5 60 high None)).
  reflexivity.
Defined.

(** X15. What a mutating handler answers is what is read afterwards:
    after a purchase that answered, [inventory_status] reports its
    remaining_stock; after a manual restock that answered, its
    stock_after. *)
Theorem mutate_then_status (w : World) (pid : string) :
  (forall quantity r,
     (purchase_product pid quantity w).1 = Ok r ->
     exists s,
       (inventory_status pid (purchase_product pid quantity w).2).1 = Ok s /\
       ir_stock_quantity s = remaining_stock r) /\
  (forall r,
     (manual_restock pid w).1 = Ok r ->
     exists s,
       (inventory_status pid (manual_restock pid w).2).1 = Ok s /\
       ir_stock_quantity s = stock_after r).
Proof.
  split.
  - intros quantity r.
    destruct (purchase_product_cases w pid quantity)
      as [[_ [e ->]] | (p & p' & r' & _ & _ & _ & Hrem & ->)];
      [discriminate |].
    intros [= <-]. cbn [snd]. rewrite inventory_status_answer. cbn [disk].
    rewrite lookup_insert_eq. eexists. split; [reflexivity |].
    cbn. symmetry. exact Hrem.
  - intros r.
    destruct (manual_restock_cases w pid)
      as [[_ [e ->]] | (p & a & _ & _ & ->)]; [discriminate |].
    intros [= <-]. cbn [snd]. rewrite inventory_status_answer. cbn [disk].
    rewrite lookup_insert_eq. eexists. split; reflexivity.
Qed.

Lemma mutate_then_status_witness :
  exists s,
    (inventory_status "w1" (manual_restock "w1" (store_of widget)).2).1
    = Ok s /\
    ir_stock_quantity s = 25.
Proof.
  apply (proj2 (mutate_then_status (store_of widget) "w1")
           (mkRestockResponse "w1" 5 25 20)).
  reflexivity.
Defined.

(** X16. An identifier is added once: after a product was added, a
    second [add_product] with the same identifier, whatever its other
    fields, fails with AlreadyExists and the first record stays. *)
Theorem add_product_twice (w : World) (first second : Product) :
  disk w !! product_id first = None ->
  product_id second = product_id first ->
  add_product second (add_product first w).2 =
    (Err AlreadyExists, (add_product first w).2).
Proof.
  intros Hp Hid. apply add_product_exists.
  rewrite (add_product_fresh w first Hp), Hid. cbn.
  rewrite lookup_insert_eq. eauto.
Qed.

Lemma add_product_twice_witness :
  add_product (mkProduct "w1" "other" 0 0 0 high None)
              (add_product widget empty_World).2 =
    (Err AlreadyExists, (add_product widget empty_World).2).
Proof.
  apply (add_product_twice empty_World widget
           (mkProduct "w1" "other" 0 0 0 high None)); reflexivity.
Defined.

(** X17. Manual restocks add up: after [n] of them in a row on a
    stored product whose amount [a] is computed, the stock has grown by
    [n * a], nothing else of the product has changed, and the file was
    saved [n] times. *)
Theorem manual_restock_times_adds
    (n : nat) (w : World) (pid : string) (p : Product) (a : Z) :
  disk w !! pid = Some p ->
  compute_restock_amount (restock_quantity p) (priority p) (category p)
  = Ok a ->
  disk (manual_restock_times n pid w) !! pid =
    Some (set_stock_quantity (stock_quantity p + Z.of_nat n * a) p) /\
  saves (manual_restock_times n pid w) = (saves w + n)%nat.
Proof.
  revert w p. induction n as [| n IH]; intros w p Hp Ha.
  - cbn [manual_restock_times]. rewrite Hp.
    replace (stock_quantity p + Z.of_nat 0 * a) with (stock_quantity p)
      by lia.
    rewrite set_stock_quantity_same. split; [reflexivity | lia].
  - cbn [manual_restock_times].
    rewrite (manual_restock_found w pid p Hp), Ha. cbn [snd].
    destruct (IH (mkWorld (<[pid := set_stock_quantity (stock_quantity p + a) p]>
                            (disk w)) (S (saves w)))
                (set_stock_quantity (stock_quantity p + a) p))
      as [Hd Hs].
    + cbn. apply lookup_insert_eq.
    + exact Ha.
    + rewrite Hd, Hs. cbn [saves stock_quantity set_stock_quantity].
      split; [| lia]. f_equal. unfold set_stock_quantity. cbn. f_equal. lia.
Qed.

Lemma manual_restock_times_adds_witness :
  disk (manual_restock_times 3 "w1" (store_of widget)) !! "w1" =
    Some (set_stock_quantity (5 + Z.of_nat 3 * 20) widget) /\
  saves (manual_restock_times 3 "w1" (store_of widget)) = (0 + 3)%nat.
Proof.
  apply (manual_restock_times_adds 3 (store_of widget) "w1" widget 20);
    reflexivity.
Defined.

(** X18. A purchase that leaves a positive stock at or above the
    threshold always succeeds, whatever the sizes of the threshold and
    of the restock quantity: nothing is restocked and the remaining
    stock is the stock less the quantity. *)
Theorem purchase_product_no_restock
    (w : World) (pid : string) (p : Product) (quantity : Z) :
  disk w !! pid = Some p ->
  0 < stock_quantity p - quantity ->
  min_threshold p <= stock_quantity p - quantity ->
  purchase_product pid quantity w =
    (Ok (mkPurchaseResponse (stock_quantity p - quantity) false),
     mkWorld (<[pid := set_stock_quantity (stock_quantity p - quantity) p]>
                (disk w)) (S (saves w))).
Proof.
  intros Hp H0 Ht.
  rewrite (purchase_product_found w pid p quantity Hp) by lia.
  rewrite restock_if_needed_not_triggered; [reflexivity |].
  apply should_restock_at_threshold; cbn; lia.
Qed.

Lemma purchase_product_no_restock_witness :
  purchase_product "g1" 2
    (store_of (mkProduct "g1" "gadget" 12 10 (2 ^ 1024) high None)) =
    (Ok (mkPurchaseResponse (12 - 2) false),
     mkWorld (<["g1" := set_stock_quantity (12 - 2)
                          (mkProduct "g1" "gadget" 12 10 (2 ^ 1024) high None)]>
                (disk (store_of
                         (mkProduct "g1" "gadget" 12 10 (2 ^ 1024) high None))))
             1).
Proof.
  apply (purchase_product_no_restock
           (store_of (mkProduct "g1" "gadget" 12 10 (2 ^ 1024) high None))
           "g1" (mkProduct "g1" "gadget" 12 10 (2 ^ 1024) high None) 2);
    [reflexivity | cbn; lia | cbn; lia].
Defined.

(** X19. A purchase that answered took no more than the quantity off
    the stock: for a stored product with a non-negative restock
    quantity, the remaining stock is at least the stock less the
    quantity, and is exactly that when no restock was triggered. *)
Theorem purchase_product_remaining
    (w : World) (pid : string) (p : Product) (quantity : Z)
    (r : PurchaseResponse) :
  disk w !! pid = Some p -> 0 <= restock_quantity p ->
  (purchase_product pid quantity w).1 = Ok r ->
  quantity <= stock_quantity p /\
  stock_quantity p - quantity <= remaining_stock r /\
  (restock_triggered r = false ->
   remaining_stock r = stock_quantity p - quantity).
Proof.
  intros Hp Hq.
  destruct (purchase_product_cases w pid quantity)
    as [[_ [e ->]] | (p0 & p' & r' & Hp0 & Hle & Hr & Hrem & ->)];
    [discriminate |].
  assert (p0 = p) by congruence. subst p0. intros [= <-].
  split; [exact Hle |]. rewrite Hrem.
  apply restock_if_needed_shape in Hr. destruct Hr as (_ & Hf & Ht).
  destruct (restock_triggered r').
  - destruct (Ht eq_refl) as (a & Ha & ->).
    apply compute_restock_amount_nonneg in Ha; [| exact Hq].
    cbn. split; [lia | discriminate].
  - rewrite (Hf eq_refl). cbn. split; [lia | reflexivity].
Qed.

Lemma purchase_product_remaining_witness :
  3 <= stock_quantity widget /\ stock_quantity widget - 3 <= 22.
Proof.
  destruct (purchase_product_remaining (store_of widget) "w1" widget 3
              (mkPurchaseResponse 22 true))
    as (H1 & H2 & _);
    [reflexivity | cbn; lia | vm_compute; reflexivity |].
  split; [exact H1 | exact H2].
Defined.

(** X20. A purchase never leaves a product out of stock: for a stored
    product with a restock quantity from 1 up to [2^48], after a
    purchase that answered the remaining stock is positive and the
    status read back is not out_of_stock. *)
Theorem purchase_product_never_empty
    (w : World) (pid : string) (p : Product) (quantity : Z)
    (r : PurchaseResponse) :
  disk w !! pid = Some p -> 1 <= restock_quantity p < 2 ^ 48 ->
  (purchase_product pid quantity w).1 = Ok r ->
  0 < remaining_stock r /\
  exists s,
    (inventory_status pid (purchase_product pid quantity w).2).1 = Ok s /\
    ir_status s <> out_of_stock.
Proof.
  intros Hp Hq.
  destruct (purchase_product_cases w pid quantity)
    as [[_ [e ->]] | (p0 & p' & r' & Hp0 & Hle & Hr & Hrem & ->)];
    [discriminate |].
  assert (p0 = p) by congruence. subst p0. intros [= <-].
  assert (Hpos : 0 < stock_quantity p').
  { pose proof Hr as Hshape. apply restock_if_needed_shape in Hshape.
    destruct Hshape as (_ & Hf & Ht).
    destruct (restock_triggered r').
    - destruct (Ht eq_refl) as (a & Ha & ->). cbn in *.
      rewrite (compute_restock_amount_small p ltac:(lia)) in Ha.
      injection Ha as <-.
      pose proof (restock_amount_range p ltac:(lia)). lia.
    - rewrite (Hf eq_refl) in *. cbn.
      destruct (Z.eq_dec (stock_quantity p - quantity) 0) as [E | E];
        [| lia].
      exfalso. revert Hr. unfold restock_if_needed.
      rewrite should_restock_out_of_stock by exact E. cbn.
      destruct (compute_restock_amount _ _ _); cbn; discriminate. }
  split; [rewrite Hrem; exact Hpos |].
  cbn [snd]. rewrite inventory_status_answer. cbn [disk].
  rewrite lookup_insert_eq. eexists. split; [reflexivity |].
  cbn. unfold get_inventory_status.
  destruct (Z.eqb_spec (stock_quantity p') 0) as [E | _]; [lia |].
  destruct (stock_quantity p' <? min_threshold p'); discriminate.
Qed.

Lemma purchase_product_never_empty_witness :
  0 < 20 /\
  exists s,
    (inventory_status "w1" (purchase_product "w1" 5 (store_of widget)).2).1
    = Ok s /\
    ir_status s <> out_of_stock.
Proof.
  apply (purchase_product_never_empty (store_of widget) "w1" widget 5
           (mkPurchaseResponse 20 true));
    [reflexivity | cbn; lia | vm_compute; reflexivity].
Defined.

(** X21. On everyday numbers the whole purchase is integer
    arithmetic: for a stored product with a threshold from 0 up to
    [2^53] and a restock quantity from 0 up to [2^48], a purchase of at
    most the stock answers; the flag is the integer restock rule on the
    decremented stock, and the remaining stock is the decremented stock
    plus, when the flag is set, the integer restock amount. *)
Theorem purchase_product_small
    (w : World) (pid : string) (p : Product) (quantity : Z) :
  disk w !! pid = Some p -> quantity <= stock_quantity p ->
  0 <= min_threshold p < 2 ^ 53 -> 0 <= restock_quantity p < 2 ^ 48 ->
  let p' := set_stock_quantity (stock_quantity p - quantity) p in
  (purchase_product pid quantity w).1 =
    Ok (mkPurchaseResponse
          (if restock_rule p'
           then stock_quantity p - quantity + restock_amount p
           else stock_quantity p - quantity)
          (restock_rule p')).
Proof.
  intros Hp Hle Ht Hq p'.
  rewrite (purchase_product_found w pid p quantity Hp Hle). fold p'.
  pose proof (should_restock_small p' Ht) as Hs.
  destruct (restock_rule p') eqn:Hrule.
  - rewrite (restock_if_needed_triggered p' (restock_amount p) Hs);
      [reflexivity |].
    apply (compute_restock_amount_small p'). exact Hq.
  - rewrite (restock_if_needed_not_triggered p' Hs). reflexivity.
Qed.

Lemma purchase_product_small_witness :
  (purchase_product "w1" 3 (store_of widget)).1 =
    Ok (mkPurchaseResponse 22 true).
Proof.
  apply (purchase_product_small (store_of widget) "w1" widget 3);
    [reflexivity | cbn; lia | cbn; lia | cbn; lia].
Defined.


(** ** [should_restock] over the whole range of doubles *)

(** The rounding of [SpecFloat] is [round_half_even]. *)
Lemma Shifted_round_half_even (m k : Z) (mrs : shr_record) :
  0 <= k -> Shifted m k mrs ->
  round_nearest_even (shr_m mrs) (loc_of_shr_record mrs)
  = round_half_even m k.
Proof.
  intros Hk [Hm (t & Heq & Ht0 & Ht & Hs & Hr)].
  destruct mrs as [m' r s]; cbn [shr_m shr_r shr_s] in *.
  assert (Hpos : 0 < 2 ^ k) by (apply Z.pow_pos_nonneg; lia).
  assert (Hhalf : 1 <= k -> 2 ^ k = 2 * 2 ^ (k - 1)).
  { intros H1. replace k with (Z.succ (k - 1)) at 1 by lia.
    rewrite Z.pow_succ_r; lia. }
  assert (Hk0 : k = 0 -> t = 0).
  { intros ->. destruct Ht as [Ht | Ht]; [lia |]. cbn in Ht. lia. }
  set (rem := (if r then 2 ^ (k - 1) else 0) + t).
  assert (Hrem : 0 <= rem < 2 ^ k).
  { subst rem. destruct r.
    - specialize (Hhalf (Hr eq_refl)).
      assert (0 < 2 ^ (k - 1)) by (apply Z.pow_pos_nonneg; specialize (Hr eq_refl); lia).
      lia.
    - destruct (Z.eq_dec k 0) as [E | E]; [rewrite (Hk0 E); lia |].
      specialize (Hhalf ltac:(lia)).
      assert (0 < 2 ^ (k - 1)) by (apply Z.pow_pos_nonneg; lia). lia. }
  assert (Hq : m / 2 ^ k = m').
  { symmetry. apply (Z.div_unique_pos m (2 ^ k) m' rem); [exact Hrem | lia]. }
  assert (Hmod : m mod 2 ^ k = rem).
  { symmetry. apply (Z.mod_unique_pos m (2 ^ k) m' rem); [exact Hrem | lia]. }
  unfold round_half_even. rewrite Hq, Hmod. subst rem.
  destruct r.
  - specialize (Hhalf (Hr eq_refl)).
    destruct s; cbn [loc_of_shr_record round_nearest_even].
    + symmetry in Hs. apply Z.ltb_lt in Hs.
      destruct (Z.ltb_spec (2 * (2 ^ (k - 1) + t)) (2 ^ k)); [lia |].
      destruct (Z.ltb_spec (2 ^ k) (2 * (2 ^ (k - 1) + t))); [reflexivity | lia].
    + symmetry in Hs. apply Z.ltb_ge in Hs.
      destruct (Z.ltb_spec (2 * (2 ^ (k - 1) + t)) (2 ^ k)); [lia |].
      destruct (Z.ltb_spec (2 ^ k) (2 * (2 ^ (k - 1) + t))); [lia | reflexivity].
  - assert (Hlt : 2 * (0 + t) < 2 ^ k).
    { destruct (Z.eq_dec k 0) as [E | E]; [rewrite (Hk0 E); lia |].
      specialize (Hhalf ltac:(lia)). lia. }
    destruct (Z.ltb_spec (2 * (0 + t)) (2 ^ k)); [| lia].
    destruct s; reflexivity.
Qed.

(** [binary_round_aux] gives [round_half_even], renormalised. *)
Lemma binary_round_aux_value (sx : bool) (p : positive) (ex : Z) :
  let d := Z.pos (digits2_pos p) in
  53 <= d -> -1074 <= ex + d - 53 ->
  exists (m' : positive) (e' : Z),
    binary_round_aux 53 1024 sx (Z.pos p) ex loc_Exact =
      (if e' <=? 971 then S754_finite sx m' e' else S754_infinity sx) /\
    2 ^ 52 <= Z.pos m' < 2 ^ 53 /\
    ex + (d - 53) <= e' <= ex + (d - 53) + 1 /\
    Z.pos m' * 2 ^ (e' - ex) =
      round_half_even (Z.pos p) (d - 53) * 2 ^ (d - 53).
Proof.
  intros d Hd Hn.
  pose proof (Rounding.digits2_pos_bounds p) as Hp. fold d in Hp.
  set (k := d - 53) in *. assert (Hk : 0 <= k) by lia.
  assert (Hpos : 0 < 2 ^ k) by (apply Z.pow_pos_nonneg; lia).
  assert (Hlo : 2 ^ (d - 1) = 2 ^ 52 * 2 ^ k).
  { rewrite <- Z.pow_add_r by lia. f_equal. lia. }
  assert (Hhi : 2 ^ d = 2 ^ 53 * 2 ^ k).
  { rewrite <- Z.pow_add_r by lia. f_equal. lia. }
  destruct (Rounding.Shifted_shr (Z.pos p) k ex) as (mrs & Hshr & HS);
    [lia | lia |].
  pose proof (Rounding.Shifted_round_nearest_even _ _ _ Hk HS)
    as (HR1 & HR2 & HR3).
  pose proof (Shifted_round_half_even _ _ _ Hk HS) as HRE.
  cbv zeta in HR1, HR3.
  set (R := round_nearest_even (shr_m mrs) (loc_of_shr_record mrs)) in *.
  assert (Hm52 : 2 ^ 52 <= shr_m mrs < 2 ^ 53) by nia.
  unfold binary_round_aux, shr_fexp. cbn [Zdigits2]. fold d.
  replace (fexp 53 1024 (d + ex) - ex) with k
    by (unfold fexp, emin; lia).
  rewrite Hshr. fold R. rewrite <- HRE.
  destruct (Z.eq_dec R (2 ^ 53)) as [HR | HR].
  - rewrite HR. change (2 ^ 53) with (Z.pos 9007199254740992).
    change (1024 - 53) with 971.
    cbn [shr_record_of_loc Zdigits2].
    change (Z.pos (digits2_pos 9007199254740992)) with 54.
    replace (fexp 53 1024 (54 + (ex + k)) - (ex + k)) with 1
      by (unfold fexp, emin; lia).
    cbn [shr SpecFloat.iter_pos shr_1 shr_m].
    exists 4503599627370496%positive, (ex + k + 1).
    split; [reflexivity |]. split; [lia |]. split; [lia |].
    replace (ex + k + 1 - ex) with (k + 1) by lia.
    rewrite Z.pow_add_r by lia. lia.
  - assert (HR53 : 2 ^ 52 <= R < 2 ^ 53) by lia.
    destruct R as [| r |] eqn:ER; try lia.
    change (1024 - 53) with 971.
    cbn [shr_record_of_loc Zdigits2].
    rewrite (Rounding.digits2_pos_unique r 53) by lia.
    replace (fexp 53 1024 (53 + (ex + k)) - (ex + k)) with 0
      by (unfold fexp, emin; lia).
    cbn [shr shr_m].
    exists r, (ex + k).
    split; [reflexivity |]. split; [lia |]. split; [lia |].
    f_equal. f_equal. lia.
Qed.

Lemma log2_digits (p : positive) :
  Z.log2 (Z.pos p) + 1 = Z.pos (digits2_pos p).
Proof.
  pose proof (Rounding.digits2_pos_bounds p) as Hp.
  rewrite (Z.log2_unique (Z.pos p) (Z.pos (digits2_pos p) - 1)); [lia | lia |].
  replace (Z.succ (Z.pos (digits2_pos p) - 1)) with (Z.pos (digits2_pos p))
    by lia.
  exact Hp.
Qed.

Lemma round_half_even_bounds (t k : Z) :
  0 <= t -> 0 <= k ->
  - 2 ^ k <= 2 * (round_half_even t k * 2 ^ k - t) <= 2 ^ k.
Proof.
  intros Ht Hk. unfold round_half_even.
  assert (Hpos : 0 < 2 ^ k) by (apply Z.pow_pos_nonneg; lia).
  pose proof (Z.div_mod t (2 ^ k) ltac:(lia)) as Hdm.
  pose proof (Z.mod_pos_bound t (2 ^ k) Hpos) as Hr.
  destruct (Z.ltb_spec (2 * (t mod 2 ^ k)) (2 ^ k));
    [nia |].
  destruct (Z.ltb_spec (2 ^ k) (2 * (t mod 2 ^ k))); [nia |].
  destruct (Z.even (t / 2 ^ k)); nia.
Qed.

(** Below [2^53] nothing is rounded. *)
Lemma nearest_double_small (t : Z) :
  0 <= t < 2 ^ 53 -> nearest_double t = t.
Proof.
  intros Ht. unfold nearest_double.
  assert (Hk : Z.max 0 (Z.log2 t + 1 - 53) = 0).
  { destruct (Z.eq_dec t 0) as [-> | H0]; [reflexivity |].
    assert (Z.log2 t < 53) by (apply Z.log2_lt_pow2; lia). lia. }
  rewrite Hk. unfold round_half_even. change (2 ^ 0) with 1.
  rewrite Z.div_1_r, Z.mod_1_r.
  change (2 * 0 <? 1) with true. cbv iota. lia.
Qed.

(** An integer below [double_limit] converts to the normal double whose
    value is [nearest_double]. *)
Lemma of_int_value (t : Z) :
  0 < t < double_limit ->
  exists (m : positive) (e : Z),
    PyFloat.of_int t = Ok (S754_finite false m e) /\
    2 ^ 52 <= Z.pos m < 2 ^ 53 /\ -52 <= e <= 971 /\
    Z.pos m * 2 ^ (e + 52) = nearest_double t * 2 ^ 52.
Proof.
  intros Ht.
  destruct (Z_lt_ge_dec t (2 ^ 53)) as [Hlt | Hge].
  - destruct (Rounding.of_int_exact t ltac:(lia))
      as (m & e & Hof & Hm & He & Hval).
    exists m, e. split; [exact Hof |]. split; [exact Hm |].
    split; [lia |].
    rewrite nearest_double_small by lia. rewrite Hval.
    rewrite <- Z.mul_assoc, <- Z.pow_add_r by lia.
    f_equal. f_equal. lia.
  - unfold double_limit in Ht.
    destruct t as [| p |]; try lia.
    pose proof (Rounding.digits2_pos_bounds p) as Hp.
    pose proof (log2_digits p) as Hlog.
    set (d := Z.pos (digits2_pos p)) in *.
    assert (Hd : 54 <= d <= 1024).
    { split.
      - destruct (Z_le_gt_dec 54 d) as [H | H]; [exact H |].
        assert (2 ^ d <= 2 ^ 53) by (apply Z.pow_le_mono_r; lia). lia.
      - destruct (Z_le_gt_dec d 1024) as [H | H]; [exact H |].
        assert (2 ^ 1024 <= 2 ^ (d - 1)) by (apply Z.pow_le_mono_r; lia).
        assert (0 < 2 ^ 970) by (apply Z.pow_pos_nonneg; lia). lia. }
    destruct (binary_round_aux_value false p 0)
      as (m' & e' & Hres & Hm' & He' & Hv); fold d; try lia.
    fold d in He', Hv.
    assert (Hnd : nearest_double (Z.pos p) =
                  round_half_even (Z.pos p) (d - 53) * 2 ^ (d - 53)).
    { unfold nearest_double. rewrite Hlog.
      replace (Z.max 0 (d - 53)) with (d - 53) by lia. reflexivity. }
    pose proof (round_half_even_bounds (Z.pos p) (d - 53) ltac:(lia)
                  ltac:(lia)) as Hnear.
    rewrite <- Hv in Hnear, Hnd. rewrite Z.sub_0_r in Hnear, Hnd.
    assert (He971 : e' <= 971).
    { destruct (Z_le_gt_dec e' 971) as [H | H]; [exact H |].
      exfalso. assert (d = 1024 /\ e' = 972) as [Ed Ee] by lia.
      rewrite Ed, Ee in Hnear.
      change (1024 - 53) with 971 in Hnear.
      assert (2 ^ 52 * 2 ^ 972 <= Z.pos m' * 2 ^ 972).
      { apply Z.mul_le_mono_nonneg_r; [apply Z.pow_nonneg; lia | lia]. }
      assert (E1 : 2 ^ 52 * 2 ^ 972 = 2 ^ 1024)
        by (rewrite <- Z.pow_add_r by lia; reflexivity).
      assert (E2 : 2 ^ 971 = 2 * 2 ^ 970)
        by (change 971 with (Z.succ 970); rewrite Z.pow_succ_r; lia).
      lia. }
    exists m', e'. split.
    + unfold PyFloat.of_int, binary_normalize, binary_round.
      change PyFloat.prec with 53. change PyFloat.emax with 1024. fold d.
      replace (fexp 53 1024 (d + 0)) with (d - 53)
        by (unfold fexp, emin; lia).
      unfold shl_align.
      destruct (d - 53 - 0) as [| c | c] eqn:Ec; try lia.
      rewrite Hres.
      replace (e' <=? 971) with true by (symmetry; apply Z.leb_le; lia).
      reflexivity.
    + split; [exact Hm' |]. split; [lia |].
      rewrite Hnd, Z.pow_add_r by lia. ring.
Qed.

(** Comparing an integer with a fraction [2^-c] of that double. *)
Lemma int_le_scaled (n N : Z) (m : positive) (e c : Z) :
  -52 <= e -> 0 <= c ->
  Z.pos m * 2 ^ (e + 52) = N * 2 ^ 52 ->
  PyFloat.int_le n (S754_finite false m (e - c)) = (n * 2 ^ c <=? N).
Proof.
  intros He Hc HN. unfold PyFloat.int_le, PyFloat.mant. cbn [cond_Zopp].
  assert (Hc0 : 0 < 2 ^ c) by (apply Z.pow_pos_nonneg; lia).
  apply eq_true_iff_eq.
  destruct (Z.leb_spec 0 (e - c)) as [H0 | H0].
  - assert (EN : N = Z.pos m * 2 ^ e).
    { rewrite Z.pow_add_r, Z.mul_assoc in HN by lia.
      apply Z.mul_reg_r in HN; [lia | apply Z.pow_nonzero; lia]. }
    assert (Ee : 2 ^ e = 2 ^ (e - c) * 2 ^ c)
      by (rewrite <- Z.pow_add_r by lia; f_equal; lia).
    rewrite !Z.leb_le, EN, Ee.
    assert (0 < 2 ^ (e - c)) by (apply Z.pow_pos_nonneg; lia).
    nia.
  - rewrite !Z.leb_le.
    destruct (Z_le_gt_dec 0 e) as [He0 | He0].
    + assert (EN : N = Z.pos m * 2 ^ e).
      { rewrite Z.pow_add_r, Z.mul_assoc in HN by lia.
        apply Z.mul_reg_r in HN; [lia | apply Z.pow_nonzero; lia]. }
      assert (Ec : 2 ^ c = 2 ^ (- (e - c)) * 2 ^ e)
        by (rewrite <- Z.pow_add_r by lia; f_equal; lia).
      assert (0 < 2 ^ e) by (apply Z.pow_pos_nonneg; lia).
      rewrite EN, Ec. nia.
    + assert (EM : Z.pos m = N * 2 ^ (- e)).
      { replace (2 ^ 52) with (2 ^ (- e) * 2 ^ (e + 52)) in HN
          by (rewrite <- Z.pow_add_r by lia; f_equal; lia).
        rewrite Z.mul_assoc in HN.
        apply Z.mul_reg_r in HN; [lia | apply Z.pow_nonzero; lia]. }
      assert (Ec : 2 ^ (- (e - c)) = 2 ^ c * 2 ^ (- e))
        by (rewrite <- Z.pow_add_r by lia; f_equal; lia).
      assert (0 < 2 ^ (- e)) by (apply Z.pow_pos_nonneg; lia).
      rewrite EM, Ec. nia.
Qed.

(** The comparison of [should_restock] against a fraction of a
    threshold that converts. *)
Lemma int_le_fraction (n t c : Z) :
  0 < t < double_limit -> 53 <= c <= 54 ->
  (let? lim := PyFloat.int_mul t (S754_finite false 4503599627370496 (- c))
   in Ok (PyFloat.int_le n lim))%result
  = Ok (n * 2 ^ (c - 52) <=? nearest_double t).
Proof.
  intros Ht Hc.
  destruct (of_int_value t Ht) as (m & e & Hof & Hm & He & Hval).
  unfold PyFloat.int_mul. rewrite Hof. cbn [result_bind].
  rewrite (mul_pow2_exact m e c Hm He Hc). f_equal.
  apply (int_le_scaled n (nearest_double t) m e (c - 52)); [lia | lia |].
  exact Hval.
Qed.

(** From [double_limit] on, an integer does not convert. *)
Lemma of_int_too_large (t : Z) :
  double_limit <= t -> PyFloat.of_int t = Err OverflowError.
Proof.
  unfold double_limit. intros Ht.
  assert (H970 : 0 < 2 ^ 970) by (apply Z.pow_pos_nonneg; lia).
  assert (E971 : 2 ^ 971 = 2 * 2 ^ 970)
    by (change 971 with (Z.succ 970); rewrite Z.pow_succ_r; lia).
  assert (E1024 : 2 ^ 1024 = 2 ^ 53 * 2 ^ 971)
    by (rewrite <- Z.pow_add_r by lia; reflexivity).
  assert (E1023 : 2 ^ 1024 = 2 * 2 ^ 1023)
    by (change 1024 with (Z.succ 1023); rewrite Z.pow_succ_r; lia).
  assert (H1023 : 2 ^ 970 < 2 ^ 1023) by (apply Z.pow_lt_mono_r; lia).
  destruct t as [| p |]; try lia.
  pose proof (Rounding.digits2_pos_bounds p) as Hp.
  set (d := Z.pos (digits2_pos p)) in *.
  assert (Hd : 1024 <= d).
  { destruct (Z_le_gt_dec 1024 d) as [H | H]; [exact H |].
    assert (2 ^ d <= 2 ^ 1023) by (apply Z.pow_le_mono_r; lia). lia. }
  destruct (binary_round_aux_value false p 0)
    as (m' & e' & Hres & Hm' & He' & Hv); fold d; try lia.
  fold d in He', Hv. rewrite Z.sub_0_r in Hv.
  assert (He972 : 971 < e').
  { destruct (Z_le_gt_dec e' 971) as [H | H]; [| lia].
    exfalso. assert (d = 1024 /\ e' = 971) as [Ed Ee] by lia.
    rewrite Ed, Ee in Hv. change (1024 - 53) with 971 in Hv.
    rewrite Ed in Hp.
    assert (Hq : Z.pos p / 2 ^ 971 = 2 ^ 53 - 1).
    { symmetry.
      apply (Z.div_unique_pos _ _ _ (Z.pos p - (2 ^ 53 - 1) * 2 ^ 971));
        lia. }
    assert (Hr : Z.pos p mod 2 ^ 971 = Z.pos p - (2 ^ 53 - 1) * 2 ^ 971).
    { symmetry.
      apply (Z.mod_unique_pos _ _ (2 ^ 53 - 1)); lia. }
    assert (HR : round_half_even (Z.pos p) 971 = 2 ^ 53).
    { unfold round_half_even. rewrite Hq, Hr.
      destruct (Z.ltb_spec (2 * (Z.pos p - (2 ^ 53 - 1) * 2 ^ 971))
                  (2 ^ 971)); [lia |].
      destruct (Z.ltb_spec (2 ^ 971)
                  (2 * (Z.pos p - (2 ^ 53 - 1) * 2 ^ 971))); [lia |].
      reflexivity. }
    rewrite HR in Hv.
    apply Z.mul_reg_r in Hv; [lia | lia]. }
  unfold PyFloat.of_int, binary_normalize, binary_round.
  change PyFloat.prec with 53. change PyFloat.emax with 1024. fold d.
  replace (fexp 53 1024 (d + 0)) with (d - 53)
    by (unfold fexp, emin; lia).
  unfold shl_align.
  destruct (d - 53 - 0) as [| c | c] eqn:Ec; try lia.
  rewrite Hres.
  replace (e' <=? 971) with false by (symmetry; apply Z.leb_gt; lia).
  reflexivity.
Qed.

(** C1, as the code has it. For stock >= 0 and threshold >= 0:
    [should_restock] returns true at stock 0 and false at a positive
    stock at or above the threshold; for 0 < stock < threshold it returns
    true for priority high; for priority medium, resp. low, and a
    threshold below 2^1024 - 2^970 it returns whether 2 * stock, resp.
    4 * stock, is at most the double nearest to the threshold (ties to
    even), which is the comparison of stock with threshold * 0.5, resp.
    threshold * 0.25, in floating point; for priority medium or low and
    a threshold from 2^1024 - 2^970 on it raises OverflowError.  The
    nearest double is the threshold itself below 2^53. *)
Theorem should_restock_spec (p : Product) :
  0 <= stock_quantity p -> 0 <= min_threshold p ->
  (stock_quantity p = 0 -> should_restock p = Ok true) /\
  (0 < stock_quantity p -> min_threshold p <= stock_quantity p ->
   should_restock p = Ok false) /\
  (0 < stock_quantity p < min_threshold p ->
   (priority p = high -> should_restock p = Ok true) /\
   (priority p = medium -> min_threshold p < double_limit ->
    should_restock p =
      Ok (stock_quantity p * 2 <=? nearest_double (min_threshold p))) /\
   (priority p = low -> min_threshold p < double_limit ->
    should_restock p =
      Ok (stock_quantity p * 4 <=? nearest_double (min_threshold p))) /\
   (priority p <> high -> double_limit <= min_threshold p ->
    should_restock p = Err OverflowError)) /\
  (min_threshold p < 2 ^ 53 ->
   nearest_double (min_threshold p) = min_threshold p).
Proof.
  intros Hs Ht. split; [apply should_restock_out_of_stock |].
  split; [intros; apply should_restock_at_threshold; lia |].
  split; [| intros; apply nearest_double_small; lia].
  intros [H0 Hlt].
  pose proof (should_restock_below p ltac:(lia) Hlt) as HB.
  split; [intros Hp; rewrite HB, Hp; reflexivity |].
  split; [| split].
  - intros Hp Hlim. rewrite HB, Hp.
    pose proof (int_le_fraction (stock_quantity p) (min_threshold p) 53
                  ltac:(lia) ltac:(lia)) as H.
    change (- (53)) with (-53) in H. exact H.
  - intros Hp Hlim. rewrite HB, Hp.
    pose proof (int_le_fraction (stock_quantity p) (min_threshold p) 54
                  ltac:(lia) ltac:(lia)) as H.
    change (- (54)) with (-54) in H. exact H.
  - intros Hp Hlim. rewrite HB.
    pose proof (of_int_too_large (min_threshold p) Hlim) as Hof.
    unfold PyFloat.int_mul. rewrite Hof.
    destruct (priority p); [contradiction | reflexivity | reflexivity].
Qed.

Lemma should_restock_spec_witness :
  should_restock widget = Ok (5 * 2 <=? nearest_double 10).
Proof.
  destruct (should_restock_spec widget ltac:(cbn; lia) ltac:(cbn; lia))
    as (_ & _ & H & _).
  destruct (H ltac:(cbn; lia)) as (_ & Hmedium & _).
  apply Hmedium; [reflexivity | vm_compute; reflexivity].
Defined.

(** C1, as the specification has it, fails: at stock 1, threshold
    [2^1024] and priority medium, with twice the stock well below the
    threshold, [should_restock] returns neither true nor false. *)
Lemma should_restock_raises :
  let p := mkProduct "w1" "widget" 1 (2 ^ 1024) 20 medium None in
  0 <= stock_quantity p /\ 0 <= min_threshold p /\
  0 < stock_quantity p < min_threshold p /\
  stock_quantity p * 2 <= min_threshold p /\
  should_restock p = Err OverflowError /\
  should_restock p <> Ok true.
Proof.
  cbv zeta. cbn [stock_quantity min_threshold].
  assert (0 < 2 ^ 1024) by (apply Z.pow_pos_nonneg; lia).
  assert (4 <= 2 ^ 1024).
  { change 4 with (2 ^ 2). apply Z.pow_le_mono_r; lia. }
  assert (E : should_restock
                (mkProduct "w1" "widget" 1 (2 ^ 1024) 20 medium None)
              = Err OverflowError) by (vm_compute; reflexivity).
  split; [lia |]. split; [lia |]. split; [lia |]. split; [lia |].
  split; [exact E | rewrite E; discriminate].
Qed.

(** ** The handlers when [save_data] can fail *)

(** Each mutating handler calls [save_data] once, last: over the store
    that can fail it does what it does over the one that cannot, up to
    the outcome of that call. *)
Lemma add_product_io_under (o : save_outcome) (product : Product) (w : World) :
  add_product_io o product w = under_outcome o w (add_product product w).
Proof.
  unfold add_product_io, add_product, io_bind, bind, load_data_io, load_data.
  destruct (decide (is_Some (disk w !! product_id product))); [reflexivity |].
  destruct o; reflexivity.
Qed.

Lemma purchase_product_io_under
    (o : save_outcome) (pid : string) (quantity : Z) (w : World) :
  purchase_product_io o pid quantity w =
  under_outcome o w (purchase_product pid quantity w).
Proof.
  unfold purchase_product_io, purchase_product, io_bind, bind,
    load_data_io, load_data, io_lift, lift.
  destruct (disk w !! pid) as [p |]; [| reflexivity].
  destruct (stock_quantity p <? quantity); [reflexivity |].
  destruct (restock_if_needed _) as [[p' triggered] | e]; [| reflexivity].
  destruct o; reflexivity.
Qed.

Lemma manual_restock_io_under (o : save_outcome) (pid : string) (w : World) :
  manual_restock_io o pid w = under_outcome o w (manual_restock pid w).
Proof.
  unfold manual_restock_io, manual_restock, io_bind, bind,
    load_data_io, load_data, io_lift, lift.
  destruct (disk w !! pid) as [p |]; [| reflexivity].
  match goal with
  | |- context [match ?r with Ok _ => _ | Err _ => _ end] =>
      destruct r as [a | e]
  end; [| reflexivity].
  destruct o; reflexivity.
Qed.

Lemma under_outcome_saves_once {A}
    (o : save_outcome) (w : World) (r : result A * World) :
  match r with
  | (Ok _, w') => saves w' = S (saves w)
  | (Err _, w') => w' = w
  end ->
  saves_once o w r (under_outcome o w r).
Proof.
  destruct r as [[a | e] w']; cbn.
  - intros Hs. destruct o; cbn; repeat split; eauto; discriminate.
  - intros ->. split; reflexivity.
Qed.

(** X5. Each of [add_product], [purchase_product] and
    [manual_restock] calls [save_data] at most once and only after
    every check and computation of its own has passed: it answers only
    when the file was written; when it raises an exception of its own
    the file is untouched and [save_data] was not called; when
    [save_data] fails the handler raises that failure, and the file is
    as it was if [open] failed and reads as empty if the write failed
    after [open] emptied it. *)
Theorem mutators_save_outcomes (o : save_outcome) (w : World) :
  (forall product,
     saves_once o w (add_product product w) (add_product_io o product w)) /\
  (forall pid quantity,
     saves_once o w (purchase_product pid quantity w)
                    (purchase_product_io o pid quantity w)) /\
  (forall pid,
     saves_once o w (manual_restock pid w) (manual_restock_io o pid w)).
Proof.
  split; [| split].
  - intros product. rewrite add_product_io_under.
    apply under_outcome_saves_once.
    destruct (add_product_cases w product) as [[_ ->] | (s & _ & _ & ->)];
      reflexivity.
  - intros pid quantity. rewrite purchase_product_io_under.
    apply under_outcome_saves_once.
    destruct (purchase_product_cases w pid quantity)
      as [[Hw [e He]] | (p & p' & r & _ & _ & _ & _ & ->)]; [| reflexivity].
    destruct (purchase_product pid quantity w) as [[r | e'] w'];
      cbn in *; [discriminate | exact Hw].
  - intros pid. rewrite manual_restock_io_under.
    apply under_outcome_saves_once.
    destruct (manual_restock_cases w pid)
      as [[Hw [e He]] | (p & a & _ & _ & ->)]; [| reflexivity].
    destruct (manual_restock pid w) as [[r | e'] w'];
      cbn in *; [discriminate | exact Hw].
Qed.

(** X6. A purchase fails in four ways only: NotFound when the id is
    absent; InsufficientStock, carrying stock and quantity, when the
    stock is below the quantity; OverflowError out of the automatic
    restock; and the failure of [save_data], which is reached only when
    the stock covers the quantity. *)
Theorem purchase_product_io_errors
    (o : save_outcome) (w : World) (pid : string) (quantity : Z)
    (e : io_error) :
  (purchase_product_io o pid quantity w).1 = Failed e ->
  (disk w !! pid = None /\ e = Raised NotFound) \/
  (exists p, disk w !! pid = Some p /\ stock_quantity p < quantity /\
             e = Raised (InsufficientStock (stock_quantity p) quantity)) \/
  (exists p, disk w !! pid = Some p /\ quantity <= stock_quantity p /\
             e = Raised OverflowError) \/
  (exists p, disk w !! pid = Some p /\ quantity <= stock_quantity p /\
             o <> written /\ e = PersistenceError).
Proof.
  rewrite purchase_product_io_under.
  destruct (disk w !! pid) as [p |] eqn:Hp.
  - destruct (Z_lt_ge_dec (stock_quantity p) quantity) as [Hlt | Hge].
    + rewrite (purchase_product_short w pid p quantity Hp Hlt). cbn.
      intros [= <-]. right. left. eauto.
    + rewrite (purchase_product_found w pid p quantity Hp) by lia.
      destruct (restock_if_needed _) as [[p' triggered] | e'] eqn:Hr.
      * destruct o; cbn; try discriminate; intros [= <-];
          right; right; right; exists p;
          repeat split; try lia; discriminate.
      * cbn. intros [= <-]. right. right. left. exists p.
        repeat split; [lia |].
        f_equal. exact (restock_if_needed_error _ _ Hr).
  - rewrite (purchase_product_not_found w pid quantity Hp). cbn.
    intros [= <-]. left. split; reflexivity.
Qed.

Lemma purchase_product_io_errors_witness :
  (disk (store_of widget) !! "w1" = None /\
   PersistenceError = Raised NotFound) \/
  (exists p, disk (store_of widget) !! "w1" = Some p /\
             stock_quantity p < 1 /\
             PersistenceError =
               Raised (InsufficientStock (stock_quantity p) 1)) \/
  (exists p, disk (store_of widget) !! "w1" = Some p /\
             1 <= stock_quantity p /\
             PersistenceError = Raised OverflowError) \/
  (exists p, disk (store_of widget) !! "w1" = Some p /\
             1 <= stock_quantity p /\
             dump_fails <> written /\ PersistenceError = PersistenceError).
Proof.
  apply (purchase_product_io_errors dump_fails (store_of widget) "w1" 1
           PersistenceError).
  vm_compute. reflexivity.
Defined.

(** X7. [add_product] fails exactly when the identifier is taken,
    with AlreadyExists, or when it is free and [save_data] fails, with
    that failure; [inventory_status], which never saves, fails exactly
    when the identifier is absent, with NotFound; [get_all_inventory]
    never fails, and on the empty store answers with the empty list. *)
Theorem handlers_fail_exactly (o : save_outcome) (w : World) :
  (forall product e,
     (add_product_io o product w).1 = Failed e <->
     (is_Some (disk w !! product_id product) /\ e = Raised AlreadyExists) \/
     (disk w !! product_id product = None /\ o <> written /\
      e = PersistenceError)) /\
  (forall pid e,
     (inventory_status pid w).1 = Err e <->
     disk w !! pid = None /\ e = NotFound) /\
  (exists l, (get_all_inventory w).1 = Ok l) /\
  (disk w = ∅ -> (get_all_inventory w).1 = Ok []).
Proof.
  split; [| split; [| split]].
  - intros product e. rewrite add_product_io_under.
    destruct (add_product_cases w product)
      as [[Hs ->] | (s & Hn & _ & ->)]; cbn.
    + split.
      * intros [= <-]. left. auto.
      * intros [[_ ->] | [Hn _]]; [reflexivity |].
        rewrite Hn in Hs. destruct Hs as [x Hx]. discriminate.
    + split.
      * destruct o; cbn; try discriminate; intros [= <-]; right;
          repeat split; try assumption; discriminate.
      * intros [[Hs _] | (_ & Ho & ->)].
        -- rewrite Hn in Hs. destruct Hs as [x Hx]. discriminate.
        -- destruct o; [contradiction | reflexivity | reflexivity].
  - intros pid e. rewrite inventory_status_answer.
    destruct (disk w !! pid) as [p |].
    + split; [discriminate | intros [? _]; discriminate].
    + split; [intros [= <-]; auto | intros [_ ->]; reflexivity].
  - rewrite get_all_inventory_answer. eauto.
  - intros E. rewrite get_all_inventory_answer, E, map_to_list_empty.
    reflexivity.
Qed.

Lemma handlers_fail_exactly_witness :
  (get_all_inventory empty_World).1 = Ok [].
Proof.
  apply (proj2 (proj2 (proj2 (handlers_fail_exactly written empty_World)))).
  reflexivity.
Defined.
